(** * SLO transform manager: lifecycle operations over an Elasticsearch
      transform, guarded by a retry policy for transient failures.

    Source: x-pack/plugins/observability/server/services/slo/transform_manager.ts
    (class [DefaultTransformManager]).  The retry helper it imports from
    [../../utils/retry] has no source here; it is modelled from the
    specification (module [Retry]). *)

From stdpp Require Import base option list strings gmap pretty.

Set Default Proof Using "Type".

(** ** Results, exceptions, log entries *)

(** Outcome of a fallible call: a resolved promise or a rejected one. *)
Inductive Result (E A : Type) : Type :=
| Ok (value : A)
| Err (reason : E).
Arguments Ok {E A} value.
Arguments Err {E A} reason.

(** What a caller of the manager can catch.  [X] is the type of the errors
    the retried operation itself fails with.  [Error] is JavaScript's
    [new Error(message)] and [TypeError] the error of a call of something
    that is no function; the other two constructors are the classified
    errors of the specification's taxonomy. *)
Inductive Exception (X : Type) : Type :=
| Error (message : string)
| TypeError
| FatalError (cause : X)
| RetriesExhaustedError (last : X).
Arguments Error {X} message.
Arguments TypeError {X}.
Arguments FatalError {X} cause.
Arguments RetriesExhaustedError {X} last.

(** The branch a caller takes to tell exhausted retries from the rest. *)
Definition isRetriesExhausted {X} (e : Exception X) : bool :=
  match e with
  | RetriesExhaustedError _ => true
  | _ => false
  end.

(** Severities of [Logger] used by the code: [logger.error], [logger.warn]. *)
Inductive Level : Type := ErrorLevel | WarnLevel.

#[global] Instance Level_eq_dec : EqDecision Level.
Proof. solve_decision. Defined.

Inductive Payload (X : Type) : Type :=
| Message (text : string)
| RetryAttempt (attempt : nat) (cause : X)
| FatalFailure (cause : X).
Arguments Message {X} text.
Arguments RetryAttempt {X} attempt cause.
Arguments FatalFailure {X} cause.

Record LogEntry (X : Type) : Type := mkLogEntry {
  level : Level;
  payload : Payload X
}.
Arguments mkLogEntry {X} level payload.
Arguments level {X} _.
Arguments payload {X} _.

(** ** The world a call runs in

    [env] is the state the retried operation works on (for the manager: the
    Elasticsearch client).  [logs] is the logger sink and [delays] the waits
    between attempts, both oldest first.  [invocations] counts the calls of
    retried operations and [policyRuns] the entries into the retry policy;
    they play the role of a mock's call count. *)
Record World (Env X : Type) : Type := mkWorld {
  env : Env;
  logs : list (LogEntry X);
  delays : list nat;
  invocations : nat;
  policyRuns : nat
}.
Arguments mkWorld {Env X} env logs delays invocations policyRuns.
Arguments env {Env X} _.
Arguments logs {Env X} _.
Arguments delays {Env X} _.
Arguments invocations {Env X} _.
Arguments policyRuns {Env X} _.

Section Effects.
Context {Env X : Type}.

Definition withEnv (s : Env) (w : World Env X) : World Env X :=
  mkWorld s (logs w) (delays w) (invocations w) (policyRuns w).

Definition logged (l : Level) (p : Payload X) (w : World Env X) : World Env X :=
  mkWorld (env w) (logs w ++ [mkLogEntry l p]) (delays w)
          (invocations w) (policyRuns w).

Definition slept (ms : nat) (w : World Env X) : World Env X :=
  mkWorld (env w) (logs w) (delays w ++ [ms]) (invocations w) (policyRuns w).

Definition invoked (w : World Env X) : World Env X :=
  mkWorld (env w) (logs w) (delays w) (S (invocations w)) (policyRuns w).

Definition entered (w : World Env X) : World Env X :=
  mkWorld (env w) (logs w) (delays w) (invocations w) (S (policyRuns w)).

(** An asynchronous computation: state passing with exceptions. *)
Definition M (A : Type) : Type :=
  World Env X -> Result (Exception X) A * World Env X.

Definition ret {A} (a : A) : M A := fun w => (Ok a, w).

Definition throw {A} (e : Exception X) : M A := fun w => (Err e, w).

Definition bind {A B} (m : M A) (k : A -> M B) : M B :=
  fun w =>
    match m w with
    | (Ok a, w') => k a w'
    | (Err e, w') => (Err e, w')
    end.

(** [try { body } catch (err) { handler(err) }] *)
Definition tryCatch {A} (body : M A) (handler : Exception X -> M A) : M A :=
  fun w =>
    match body w with
    | (Ok a, w') => (Ok a, w')
    | (Err e, w') => handler e w'
    end.

(** [logger.error(text)] *)
Definition logger_error (text : string) : M unit :=
  fun w => (Ok tt, logged ErrorLevel (Message text) w).

End Effects.

Arguments M : clear implicits.

Declare Scope manager_scope.
Delimit Scope manager_scope with manager.
Notation "x <- m ;;; k" := (bind m (fun x => k))
  (at level 100, m at next level, right associativity) : manager_scope.
Notation "m ;;; k" := (bind m (fun _ => k))
  (at level 100, right associativity) : manager_scope.

(** ** The retry policy *)

Module Retry.

(** [RetryConfig] of the specification.  Its logger is the sink [logs] of
    the world: the manager owns one logger and hands it to every call. *)
Record RetryConfig : Type := mkRetryConfig {
  maxRetries : nat;
  baseDelay : nat
}.

Section Policy.
Context {Env X T : Type}.

(** The error classifier: [true] for a transient error, [false] for a
    fatal one. *)
Variable isTransient : X -> bool.

(** A unit of work: it acts on its environment and resolves or rejects. *)
Definition RetryableOperation : Type := Env -> Result X T * Env.

(** Modelled from the spec: the body of [executeWithRetry], whose source
    ([utils/retry]) is missing.  It invokes [op]; a success is returned at
    once; a fatal failure is logged once at error severity and propagated; a
    transient failure is retried while [budget] retries remain, each retry
    logged with its attempt count and the original error and preceded by a
    wait of [baseDelay * 2^attempt]; with no retry left the last transient
    error is wrapped in [RetriesExhaustedError]. *)
Fixpoint attemptFrom (op : RetryableOperation) (cfg : RetryConfig)
    (budget attempt : nat) (w : World Env X)
    : Result (Exception X) T * World Env X :=
  match op (env w) with
  | (Ok v, s) => (Ok v, invoked (withEnv s w))
  | (Err e, s) =>
      let w1 := invoked (withEnv s w) in
      if isTransient e then
        match budget with
        | O => (Err (RetriesExhaustedError e), w1)
        | S budget' =>
            attemptFrom op cfg budget' (S attempt)
              (slept (baseDelay cfg * 2 ^ attempt)
                 (logged WarnLevel (RetryAttempt attempt e) w1))
        end
      else (Err (FatalError e), logged ErrorLevel (FatalFailure e) w1)
  end.

(** Modelled from the spec: [executeWithRetry(op, config)], missing with
    [utils/retry]; at most [maxRetries] retries after the first attempt. *)
Definition executeWithRetry (op : RetryableOperation) (cfg : RetryConfig)
    : M Env X T :=
  fun w => attemptFrom op cfg (maxRetries cfg) 0 (entered w).

(** The environment after [k] successive invocations of [op]. *)
Fixpoint envAfter (op : RetryableOperation) (k : nat) (s : Env) : Env :=
  match k with
  | O => s
  | S k' => envAfter op k' (snd (op s))
  end.

(** The successive invocations of [op] from [s] fail with [errs], in order. *)
Fixpoint failsWith (op : RetryableOperation) (errs : list X) (s : Env) : Prop :=
  match errs with
  | [] => True
  | e :: errs' => fst (op s) = Err e /\ failsWith op errs' (snd (op s))
  end.

(** The log entry of the retry numbered [attempt]. *)
Definition retryEntry (attempt : nat) (e : X) : LogEntry X :=
  mkLogEntry WarnLevel (RetryAttempt attempt e).

(** The world after the failures [errs] were met and retried, the first
    of them at retry number [attempt]. *)
Definition afterRetries (op : RetryableOperation) (cfg : RetryConfig)
    (attempt : nat) (errs : list X) (w : World Env X) : World Env X :=
  mkWorld (envAfter op (length errs) (env w))
          (logs w ++ imap (fun k e => retryEntry (attempt + k) e) errs)
          (delays w ++ imap (fun k _ => baseDelay cfg * 2 ^ (attempt + k)) errs)
          (invocations w + length errs)
          (policyRuns w).

End Policy.
End Retry.

(** ** Property reads on JavaScript objects *)

Module JsObject.

(** The names every object literal inherits from [Object.prototype]. *)
Definition objectPrototypeKeys : list string :=
  ["constructor"; "__defineGetter__"; "__defineSetter__"; "hasOwnProperty";
   "__lookupGetter__"; "__lookupSetter__"; "isPrototypeOf";
   "propertyIsEnumerable"; "toString"; "valueOf"; "__proto__";
   "toLocaleString"].

(** What [object[key]] finds: an own property, a property inherited from
    [Object.prototype] (a function or the prototype itself, with no bound
    of its own), or [undefined]. *)
Inductive Member (A : Type) : Type :=
| Own (value : A)
| Inherited
| Missing.
Arguments Own {A} value.
Arguments Inherited {A}.
Arguments Missing {A}.

Definition member {A} (object : gmap string A) (key : string) : Member A :=
  match object !! key with
  | Some value => Own value
  | None => if bool_decide (key ∈ objectPrototypeKeys) then Inherited else Missing
  end.

End JsObject.

(** ** The transform manager *)

Module TransformManager.
Import JsObject.

Local Open Scope manager_scope.

(** [type TransformId = string] *)
Definition TransformId : Type := string.

(** The part of an SLO the manager reads: [slo.indicator.type], a member of
    the string union [IndicatorTypes].  What else an SLO holds is for the
    generators and stays opaque. *)
Record Indicator : Type := mkIndicator {
  type : string;
  params : string
}.

Record SLO : Type := mkSLO {
  indicator : Indicator;
  settings : string
}.

(** [TransformPutTransformRequest]: the id of the transform and the rest of
    the request, opaque to the manager. *)
Record TransformPutTransformRequest : Type := mkPutRequest {
  transform_id : TransformId;
  body : string
}.

(** [TransformGenerator]: the interface of the registry's entries. *)
Record TransformGenerator : Type := mkGenerator {
  getTransformParams : SLO -> TransformPutTransformRequest
}.

(** The requests the manager sends through [esClient.transform], with the
    parameters it sets. *)
Inductive TransformRequest : Type :=
| PutTransform (transformParams : TransformPutTransformRequest)
| PreviewTransform (transformId : TransformId)
| StartTransform (transformId : TransformId)
| StopTransform (transformId : TransformId) (wait_for_completion force : bool)
| DeleteTransform (transformId : TransformId) (force : bool).

(** The [force] parameter of a request, when it has one. *)
Definition forceOf (r : TransformRequest) : option bool :=
  match r with
  | StopTransform _ _ force => Some force
  | DeleteTransform _ force => Some force
  | _ => None
  end.

(** The [wait_for_completion] parameter of a request, when it has one. *)
Definition waitForCompletionOf (r : TransformRequest) : option bool :=
  match r with
  | StopTransform _ wait_for_completion _ => Some wait_for_completion
  | _ => None
  end.

(** Transport options of a call: [{ ignore: [...] }]; no option is [[]]. *)
Record TransportRequestOptions : Type := mkOptions {
  ignore : list nat
}.

(** Errors the Elasticsearch client rejects with. *)
Inductive EsError : Type :=
| ResponseError (statusCode : nat)
| ConnectionError
| TimeoutError.

(** What the backend does with a request: it answers with an HTTP status,
    or the request never gets an answer. *)
Inductive Reply : Type :=
| Response (statusCode : nat)
| Unreachable
| TimedOut.

(** The client: the server it talks to and the requests it has sent,
    oldest first. *)
Record EsClient (ES : Type) : Type := mkClient {
  server : ES;
  sent : list (TransformRequest * TransportRequestOptions)
}.
Arguments mkClient {ES} server sent.
Arguments server {ES} _.
Arguments sent {ES} _.

(** The five operations of [TransformManager]. *)
Inductive Operation : Type := Install | Preview | Start | Stop | Uninstall.

(** The word by which the manager's error entry names an operation. *)
Definition verb (o : Operation) : string :=
  match o with
  | Install => "create"
  | Preview => "preview"
  | Start => "start"
  | Stop => "stop"
  | Uninstall => "delete"
  end.

(** The text of the error entry of each [catch] block; [subject] is the
    indicator type for [install] and the transform id for the others. *)
Definition failureText (o : Operation) (subject : string) : string :=
  match o with
  | Install => "Cannot create SLO transform for indicator type [" +:+ subject +:+ "]"
  | Preview => "Cannot preview SLO transform [" +:+ subject +:+ "]"
  | Start => "Cannot start SLO transform [" +:+ subject +:+ "]"
  | Stop => "Cannot stop SLO transform [" +:+ subject +:+ "]"
  | Uninstall => "Cannot delete SLO transform [" +:+ subject +:+ "]"
  end.

(** The statuses each operation passes in [ignore]. *)
Definition ignorable (o : Operation) : list nat :=
  match o with
  | Install => []
  | Preview => []
  | Start => [409]
  | Stop => [404]
  | Uninstall => [404]
  end.

(** A text names a word when the word occurs in it. *)
Definition mentions (word text : string) : Prop :=
  exists before after, text = before +:+ word +:+ after.

Section Manager.
Context {ES : Type}.

(** The backend, an arbitrary state machine over [ES]. *)
Variable handle : TransformRequest -> ES -> Reply * ES.

(** The constants of the missing [utils/retry]: its classifier of
    Elasticsearch errors and its retry budget and base delay. *)
Variable isTransient : EsError -> bool.
Variable retryConfig : Retry.RetryConfig.

(** Constructor argument [generators : Record<IndicatorTypes, TransformGenerator>],
    an object keyed by indicator type; its entries, objects themselves, are
    never falsy.  The other two arguments, [esClient] and [logger], are
    [env] and [logs] of the world. *)
Variable generators : gmap string TransformGenerator.

Definition ManagerWorld : Type := World (EsClient ES) EsError.

(** One call of the Elasticsearch client (an external library): the request
    is sent and recorded; an answer rejects with a [ResponseError] when its
    status is 400 or more and is not listed in [ignore], and resolves
    otherwise; a request without answer rejects with a connection or
    timeout error. *)
Definition transportRequest (req : TransformRequest)
    (options : TransportRequestOptions)
    : EsClient ES -> Result EsError unit * EsClient ES :=
  fun c =>
    let (reply, server') := handle req (server c) in
    let c' := mkClient server' (sent c ++ [(req, options)]) in
    match reply with
    | Response statusCode =>
        let ignoreStatusCode := bool_decide (statusCode ∈ ignore options) in
        if negb ignoreStatusCode && bool_decide (400 <= statusCode)
        then (Err (ResponseError statusCode), c')
        else (Ok tt, c')
    | Unreachable => (Err ConnectionError, c')
    | TimedOut => (Err TimeoutError, c')
    end.

(** Modelled from the spec: [retryTransientEsErrors(esCall, { logger })]
    of the missing [utils/retry] is the [executeWithRetry] of the
    specification, at the constants above; its logger is [this.logger], the
    log of the world. *)
Definition retryTransientEsErrors {T} (esCall : EsClient ES -> Result EsError T * EsClient ES)
    : M (EsClient ES) EsError T :=
  Retry.executeWithRetry isTransient esCall retryConfig.

(** [async install(slo: SLO): Promise<TransformId>].
    [this.generators[slo.indicator.type]] reads an own entry, or what every
    object inherits from [Object.prototype], or [undefined].  Only
    [undefined] is caught by the guard [!generator].  An inherited value is
    truthy and has no [getTransformParams]: the call of line 38, which is
    outside the [try], throws a [TypeError] and nothing is logged. *)
Definition install (slo : SLO) : M (EsClient ES) EsError TransformId :=
  match member generators (type (indicator slo)) with
  | Missing =>
      logger_error ("No transform generator found for indicator type ["
                    +:+ type (indicator slo) +:+ "]") ;;;
      throw (Error ("Unsupported indicator type [" +:+ type (indicator slo) +:+ "]"))
  | Inherited => throw TypeError
  | Own generator =>
      let transformParams := getTransformParams generator slo in
      tryCatch
        (retryTransientEsErrors
           (transportRequest (PutTransform transformParams) (mkOptions [])))
        (fun err =>
           logger_error ("Cannot create SLO transform for indicator type ["
                         +:+ type (indicator slo) +:+ "]") ;;;
           throw err) ;;;
      ret (transform_id transformParams)
  end.

(** [async preview(transformId: string): Promise<void>] *)
Definition preview (transformId : TransformId) : M (EsClient ES) EsError unit :=
  tryCatch
    (retryTransientEsErrors
       (transportRequest (PreviewTransform transformId) (mkOptions [])))
    (fun err =>
       logger_error ("Cannot preview SLO transform [" +:+ transformId +:+ "]") ;;;
       throw err).

(** [async start(transformId: TransformId): Promise<void>] *)
Definition start (transformId : TransformId) : M (EsClient ES) EsError unit :=
  tryCatch
    (retryTransientEsErrors
       (transportRequest (StartTransform transformId) (mkOptions [409])))
    (fun err =>
       logger_error ("Cannot start SLO transform [" +:+ transformId +:+ "]") ;;;
       throw err).

(** [async stop(transformId: TransformId): Promise<void>] *)
Definition stop (transformId : TransformId) : M (EsClient ES) EsError unit :=
  tryCatch
    (retryTransientEsErrors
       (transportRequest (StopTransform transformId true true) (mkOptions [404])))
    (fun err =>
       logger_error ("Cannot stop SLO transform [" +:+ transformId +:+ "]") ;;;
       throw err).

(** [async uninstall(transformId: TransformId): Promise<void>] *)
Definition uninstall (transformId : TransformId) : M (EsClient ES) EsError unit :=
  tryCatch
    (retryTransientEsErrors
       (transportRequest (DeleteTransform transformId true) (mkOptions [404])))
    (fun err =>
       logger_error ("Cannot delete SLO transform [" +:+ transformId +:+ "]") ;;;
       throw err).

(** [guarded] is the call every operation wraps in its [try]; an
    [operation] logs once and rethrows when a failure of the call comes out
    of it unchanged after one more entry, [text] at error severity, and the
    operation resolves only when the call does. *)
Definition logsOnceAndRethrows {A B} (guarded : M (EsClient ES) EsError A)
    (operation : M (EsClient ES) EsError B) (text : string) : Prop :=
  (forall w err w1,
     guarded w = (Err err, w1) ->
     operation w = (Err err, logged ErrorLevel (Message text) w1)) /\
  (forall w b w',
     operation w = (Ok b, w') -> exists a, guarded w = (Ok a, w')).

(** The requests sent between two worlds of one run. *)
Definition issued (w w' : ManagerWorld)
    : list (TransformRequest * TransportRequestOptions) :=
  drop (length (sent (env w))) (sent (env w')).

End Manager.
End TransformManager.

(** ** Test doubles

    A backend and constants to run the manager on, in the manner of the
    mocks of a unit test. *)

Module Mock.
Import Retry TransformManager.

(** A scripted backend: each request consumes the next reply of the script;
    once the script is over every request is answered with 200. *)
Definition scripted (req : TransformRequest) (script : list Reply)
    : Reply * list Reply :=
  match script with
  | reply :: rest => (reply, rest)
  | [] => (Response 200, [])
  end.

(** Modelled from the spec: a classifier after the examples of section 4.1
    (the one of [utils/retry] is missing): timeouts, lost connections and the
    statuses 503 and 429 are transient, any other status is fatal. *)
Definition transientEsError (e : EsError) : bool :=
  match e with
  | ResponseError statusCode => bool_decide (statusCode ∈ [503; 429])
  | ConnectionError => true
  | TimeoutError => true
  end.

(** Three retries, one second of base delay. *)
Definition config : RetryConfig := mkRetryConfig 3 1000.

Definition dummyGenerator : TransformGenerator :=
  mkGenerator (fun slo => mkPutRequest ("slo-" +:+ settings slo) (params (indicator slo))).

Definition registry : gmap string TransformGenerator :=
  {[ "sli.kql.custom" := dummyGenerator ]}.

Definition sloOf (kind : string) : SLO :=
  mkSLO (mkIndicator kind "{}") "7".

(** A world with nothing sent, logged or waited for yet. *)
Definition fresh (script : list Reply) : World (EsClient (list Reply)) EsError :=
  mkWorld (mkClient script []) [] [] 0 0.

(** A retryable operation that replays a list of outcomes and then keeps
    resolving to [0]; its environment is what is left of the list. *)
Definition replay (s : list (Result EsError nat))
    : Result EsError nat * list (Result EsError nat) :=
  match s with
  | r :: rest => (r, rest)
  | [] => (Ok 0, [])
  end.

Definition freshReplay (s : list (Result EsError nat))
    : World (list (Result EsError nat)) EsError :=
  mkWorld s [] [] 0 0.

End Mock.

(** ** The manager in use

    What a caller of the manager relies on when it strings the operations
    together. *)

Module Lifecycle.
Import Retry TransformManager.

Local Open Scope manager_scope.

(** The transform a request addresses: its [transform_id]. *)
Definition targetOf (r : TransformRequest) : TransformId :=
  match r with
  | PutTransform transformParams => transform_id transformParams
  | PreviewTransform transformId => transformId
  | StartTransform transformId => transformId
  | StopTransform transformId _ _ => transformId
  | DeleteTransform transformId _ => transformId
  end.

(** A backend that accepts whatever it is asked: every answer is a 2xx. *)
Definition accepting {ES : Type} (handle : TransformRequest -> ES -> Reply * ES) : Prop :=
  forall req es,
    exists statusCode,
      fst (handle req es) = Response statusCode /\ 200 <= statusCode < 300.

(** The state of the backend after [k] requests [req] in a row. *)
Fixpoint serverAfter {ES : Type} (handle : TransformRequest -> ES -> Reply * ES)
    (req : TransformRequest) (k : nat) (es : ES) : ES :=
  match k with
  | O => es
  | S k' => serverAfter handle req k' (snd (handle req es))
  end.

(** A run from [w] to [w'] resolved on the answer to its last request: it
    sent [req] with [options] once or more, in a row from the state the
    backend had in [w]; the answer to the last of them had a status below
    400 or one listed in [ignore]; every answer before had a status of 400 or
    more that is not listed; and the backend is left as the last request
    left it. *)
Definition resolvedOnLastAnswer {ES : Type}
    (handle : TransformRequest -> ES -> Reply * ES)
    (req : TransformRequest) (options : TransportRequestOptions)
    (w w' : World (EsClient ES) EsError) : Prop :=
  exists n statusCode,
    issued w w' = replicate (S n) (req, options) /\
    fst (handle req (serverAfter handle req n (server (env w)))) = Response statusCode /\
    (statusCode < 400 \/ statusCode ∈ ignore options) /\
    (forall k earlier,
       k < n ->
       fst (handle req (serverAfter handle req k (server (env w)))) = Response earlier ->
       400 <= earlier /\ earlier ∉ ignore options) /\
    server (env w') = serverAfter handle req (S n) (server (env w)).

(** A backend without state that answers 200 to every request. *)
Definition alwaysOk (req : TransformRequest) (es : unit) : Reply * unit :=
  (Response 200, es).

Section Lifecycle.
Context {ES : Type}.
Variable handle : TransformRequest -> ES -> Reply * ES.
Variable isTransient : EsError -> bool.
Variable retryConfig : RetryConfig.
Variable generators : gmap string TransformGenerator.

(** A transform taken through its whole life: installed, previewed,
    started, stopped and uninstalled, each step on the id [install] gave. *)
Definition lifecycle (slo : SLO) : M (EsClient ES) EsError TransformId :=
  transformId <- install handle isTransient retryConfig generators slo ;;;
  preview handle isTransient retryConfig transformId ;;;
  start handle isTransient retryConfig transformId ;;;
  stop handle isTransient retryConfig transformId ;;;
  uninstall handle isTransient retryConfig transformId ;;;
  ret transformId.

End Lifecycle.
End Lifecycle.

(** ** The ES|QL query of the alerting rule

    Source: x-pack/plugins/stack_alerts/server/rule_types/es_query/lib/fetch_esql_query.ts
    ([getEsqlQuery], [fetchEsqlQuery]). *)

Module EsqlQuery.
Import JsObject.

(** What the two functions throw or reject with: the [TypeError] of a
    property read on [undefined], or the rejection of a service. *)
Inductive Rejection : Type :=
| TypeError
| ServiceError (reason : string).

(** [RangeFilterParams]: the bounds of a range clause, each of them
    optional; a bound is a timestamp, kept as text. *)
Record RangeFilterParams : Type := mkRangeParams {
  gt : option string;
  gte : option string;
  lte : option string;
  format : option string
}.

(** The time filter [getTime] builds; [query_range] is its [query.range],
    an object keyed by field name. *)
Record RangeFilter : Type := mkRangeFilter {
  query_range : gmap string RangeFilterParams
}.

(** [timeRange]: [{ from, to }]. *)
Record TimeRange : Type := mkTimeRange {
  from : string;
  to : string
}.

Record EsqlQueryText : Type := mkEsqlQueryText {
  esql : string
}.

(** The fields of [OnlyEsqlQueryRuleParams] that the two functions read. *)
Record OnlyEsqlQueryRuleParams : Type := mkRuleParams {
  timeWindowSize : Z;
  timeWindowUnit : string;
  timeField : string;
  esqlQuery : EsqlQueryText
}.

(** [timerangeFilter?.query.range[key].gte] (or [.lte]): [undefined] when
    there is no filter; the bound of the entry of [key]; a [TypeError] when
    [range[key]] is [undefined]. *)
Definition boundOf (timerangeFilter : option RangeFilter) (key : string)
    (bound : RangeFilterParams -> option string)
    : Result Rejection (option string) :=
  match timerangeFilter with
  | None => Ok None
  | Some filter =>
      match member (query_range filter) key with
      | Own rangeParams => Ok (bound rangeParams)
      | Inherited => Ok None
      | Missing => Err TypeError
      end
  end.

(** The body posted to [/_esql]: [{ query, filter: { bool: { filter } } }];
    every element of [filter] is a [{ range: { ... } }] clause, an object
    keyed by field name. *)
Module Body.
Record t : Type := mk {
  query : string;
  filter : list (gmap string RangeFilterParams)
}.
End Body.

(** What [getEsqlQuery] returns. *)
Record EsqlQueryResult : Type := mkEsqlQueryResult {
  query : Body.t;
  dateStart : option string;
  dateEnd : option string
}.

(** The request [fetchEsqlQuery] hands to [esClient.transport.request]. *)
Record TransportRequestParams : Type := mkTransportRequest {
  method : string;
  path : string;
  body : Body.t
}.

(** [EsqlTable]: the answer of [/_esql]; a cell is kept as text. *)
Record EsqlTable : Type := mkEsqlTable {
  columns : list string;
  values : list (list string)
}.

Record Shards : Type := mkShards {
  failed : nat;
  successful : nat;
  total : nat
}.

(** The input of [fetchEsqlQuery] but for its services. *)
Record FetchEsqlQueryOpts : Type := mkFetchOpts {
  ruleId : string;
  alertLimit : option Z;
  params : OnlyEsqlQueryRuleParams;
  spacePrefix : string;
  publicBaseUrl : string
}.

(** What the services have seen: the entries of [logger.debug] and the
    requests handed to the transport, oldest first. *)
Record Services : Type := mkServices {
  debugged : list string;
  posted : list TransportRequestParams
}.

Section Fetch.
Context {DataView Hits Parsed : Type}.

(** [getTime] of the data plugin, which builds the time filter of a data
    view, and the conversion of a number in a template literal. *)
Variable getTime : DataView -> TimeRange -> option RangeFilter.
Variable numberToString : Z -> string.

(** [export const getEsqlQuery = (dataView, params, alertLimit) => ...];
    [alertLimit] is truthy when it is a number other than 0. *)
Definition getEsqlQuery (dataView : DataView) (params : OnlyEsqlQueryRuleParams)
    (alertLimit : option Z) : Result Rejection EsqlQueryResult :=
  let timeRange :=
    mkTimeRange ("now-" +:+ numberToString (timeWindowSize params)
                 +:+ timeWindowUnit params) "now" in
  let timerangeFilter := getTime dataView timeRange in
  match boundOf timerangeFilter (timeField params) gte with
  | Err e => Err e
  | Ok dateStart =>
      match boundOf timerangeFilter (timeField params) lte with
      | Err e => Err e
      | Ok dateEnd =>
          let rangeFilter :=
            [ {[ timeField params :=
                   mkRangeParams dateStart None dateEnd
                     (Some "strict_date_optional_time") ]} ] in
          let query :=
            Body.mk
              (match alertLimit with
               | Some limit =>
                   if bool_decide (limit = 0%Z) then esql (esqlQuery params)
                   else esql (esqlQuery params) +:+ " | limit " +:+ numberToString limit
               | None => esql (esqlQuery params)
               end)
              rangeFilter in
          Ok (mkEsqlQueryResult query dateStart dateEnd)
      end
  end.

(** The services of [fetchEsqlQuery] and the helpers it imports:
    [dataViews.create], [esClient.transport.request], [JSON.stringify],
    [toEsQueryHits] and [parseAggregationResults]. *)
Variable createDataView : string -> Result Rejection DataView.
Variable transportRequest : TransportRequestParams -> Result Rejection EsqlTable.
Variable stringify : Body.t -> string.
Variable toEsQueryHits : EsqlTable -> Hits.

(** The [esResult] and the options handed to [parseAggregationResults]. *)
Record EsResult : Type := mkEsResult {
  took : nat;
  timed_out : bool;
  _shards : Shards;
  hits : Hits
}.

Record ParseAggregationResultsOpts : Type := mkParseOpts {
  isCountAgg : bool;
  isGroupAgg : bool;
  esResult : EsResult;
  resultLimit : option Z
}.

Variable parseAggregationResults : ParseAggregationResultsOpts -> Parsed.

(** What [fetchEsqlQuery] resolves to. *)
Record FetchResult : Type := mkFetchResult {
  link : string;
  numMatches : nat;
  parsedResults : Parsed;
  fetchedDateStart : option string;
  fetchedDateEnd : option string
}.

(** [export async function fetchEsqlQuery({ ruleId, alertLimit, params,
    services, spacePrefix, publicBaseUrl })] *)
Definition fetchEsqlQuery (opts : FetchEsqlQueryOpts) (services : Services)
    : Result Rejection FetchResult * Services :=
  match createDataView (timeField (params opts)) with
  | Err e => (Err e, services)
  | Ok dataView =>
      match getEsqlQuery dataView (params opts) (alertLimit opts) with
      | Err e => (Err e, services)
      | Ok built =>
          let services1 :=
            mkServices
              (debugged services ++
                 ["ES|QL query rule (" +:+ ruleId opts +:+ ") query: "
                  +:+ stringify (query built)])
              (posted services) in
          let request := mkTransportRequest "POST" "/_esql" (query built) in
          let services2 :=
            mkServices (debugged services1) (posted services1 ++ [request]) in
          match transportRequest request with
          | Err e => (Err e, services2)
          | Ok response =>
              let link :=
                publicBaseUrl opts +:+ spacePrefix opts
                +:+ "/app/management/insightsAndAlerting/triggersActions/rule/"
                +:+ ruleId opts in
              (Ok (mkFetchResult link (length (values response))
                     (parseAggregationResults
                        (mkParseOpts true false
                           (mkEsResult 0 false (mkShards 0 0 0) (toEsQueryHits response))
                           (alertLimit opts)))
                     (dateStart built) (dateEnd built)),
               services2)
          end
      end
  end.

End Fetch.

(** *** Sample services *)

(** A time filter on one field with fixed bounds, unless the data view has
    no time field. *)
Definition sampleGetTime (dataView : option string) (timeRange : TimeRange)
    : option RangeFilter :=
  match dataView with
  | Some field =>
      Some (mkRangeFilter
              {[ field := mkRangeParams None (Some (from timeRange)) (Some (to timeRange))
                            (Some "strict_date_optional_time") ]})
  | None => None
  end.

(** Small integers as a template literal prints them. *)
Definition sampleNumberToString (n : Z) : string := pretty n.

Definition sampleParams : OnlyEsqlQueryRuleParams :=
  mkRuleParams 5 "m" "@timestamp" (mkEsqlQueryText "from logs | stats count()").

(** A data view service that gives the view of the field asked for, a
    transport that answers with a table of two rows and one that rejects. *)
Definition sampleCreate (timeFieldName : string) : Result Rejection (option string) :=
  Ok (Some timeFieldName).

Definition sampleTransport (request : TransportRequestParams)
    : Result Rejection EsqlTable :=
  Ok (mkEsqlTable ["host"; "count"] [["a"; "3"]; ["b"; "4"]]).

Definition rejectingTransport (request : TransportRequestParams)
    : Result Rejection EsqlTable :=
  Err (ServiceError "verification_exception").

(** Stand-ins for [JSON.stringify], [toEsQueryHits] and
    [parseAggregationResults]: the text of the query, the number of rows,
    the hits as they are. *)
Definition sampleStringify (requestBody : Body.t) : string :=
  Body.query requestBody.

Definition sampleHits (table : EsqlTable) : nat := length (values table).

Definition sampleParse (options : ParseAggregationResultsOpts (Hits := nat)) : nat :=
  hits (esResult options).

Definition sampleOpts : FetchEsqlQueryOpts :=
  mkFetchOpts "rule-1" (Some 100%Z) sampleParams "/s/ops" "https://kibana.example".

End EsqlQuery.

(** ** Prebuilt rules: the API calls of the Cypress tasks

    Source: x-pack/test/security_solution_cypress/cypress/tasks/api_calls/prebuilt_rules.ts.
    A [cy] call adds a command to the queue of the test; a function of the
    file is modelled by the commands it adds, in order. *)

Module PrebuiltRules.

Set Warnings "-register-all".

(** The line feed of ['\n']. *)
Definition lineFeed : Ascii.ascii := Ascii.ascii_of_nat 10.

Definition newline : string := String lineFeed EmptyString.

(** The number of occurrences of a character in a text. *)
Fixpoint occurrences (c : Ascii.ascii) (text : string) : nat :=
  match text with
  | EmptyString => 0
  | String c' rest =>
      (if bool_decide (c' = c) then 1 else 0) + occurrences c rest
  end.

(** The last character of a text, if it has one. *)
Fixpoint lastChar (text : string) : option Ascii.ascii :=
  match text with
  | EmptyString => None
  | String c EmptyString => Some c
  | String _ rest => lastChar rest
  end.

(** The JSON values the file writes as object literals. *)
Inductive Json : Type :=
| JString (text : string)
| JBool (b : bool)
| JObject (members : list (string * Json)).

(** An argument of [cy.log] after the message. *)
Inductive LogArg : Type :=
| TextArg (text : string)
| NumberArg (n : nat).

(** What a request or the check of a poll sees of a response: its status
    and, of the status of the prebuilt rules, the two counts the file reads. *)
Record Response : Type := mkResponse {
  status : nat;
  rules_installed : nat;
  rules_not_installed : nat
}.

Section Rules.

(** [typeof SAMPLE_PREBUILT_RULE], a rule asset, and the id under its
    ['security-rule'] member. *)
Context {RuleAsset : Type}.
Variable rule_id : RuleAsset -> string.

(** The body of a request: an object literal, a rule asset, a text. *)
Inductive Body : Type :=
| NoBody
| JsonBody (json : Json)
| RuleBody (rule : RuleAsset)
| TextBody (text : string).

(** The options of [cy.request]; [failOnStatusCode] is [true] when the
    call leaves it out. *)
Record RequestOptions : Type := mkRequest {
  method : string;
  url : string;
  headers : list (string * string);
  failOnStatusCode : bool;
  body : Body
}.

(** A command of the queue.  [WaitUntil] holds what one run of its check
    function adds and the verdict the check draws from the response. *)
Inductive Command : Type :=
| Log (message : string) (args : list LogArg)
| Request (options : RequestOptions)
| Intercept (method : string) (urlPattern : string) (staticResponse : Json)
| WaitUntil (check : list Command) (accept : Response -> bool)
    (interval timeout : N).

(** The imported constants and [Cypress.env('ELASTICSEARCH_URL')]. *)
Variable SAMPLE_PREBUILT_RULE : RuleAsset.
Variable PERFORM_RULE_INSTALLATION_URL : string.
Variable ELASTICSEARCH_URL : string.

(** [JSON.stringify], of an object literal and of a rule asset. *)
Variable stringify : Json -> string.
Variable stringifyRule : RuleAsset -> string.

(** [export const getPrebuiltRulesStatus = () => ...] *)
Definition getPrebuiltRulesStatus : list Command :=
  [Request
     (mkRequest "GET" "api/detection_engine/rules/prepackaged/_status"
        [("kbn-xsrf", "cypress-creds");
         ("x-elastic-internal-origin", "security-solution");
         ("elastic-api-version", "2023-10-31")]
        true NoBody)].

(** [export const installAllPrebuiltRulesRequest = () => ...] *)
Definition installAllPrebuiltRulesRequest : list Command :=
  [Request
     (mkRequest "POST" PERFORM_RULE_INSTALLATION_URL
        [("kbn-xsrf", "cypress-creds");
         ("x-elastic-internal-origin", "security-solution");
         ("elastic-api-version", "1")]
        true (JsonBody (JObject [("mode", JString "ALL_RULES")])))].

(** The value [getAvailablePrebuiltRulesCount] yields from the response. *)
Definition prebuiltRulesCount (response : Response) : nat :=
  rules_installed response + rules_not_installed response.

(** [export const getAvailablePrebuiltRulesCount = () => ...] *)
Definition getAvailablePrebuiltRulesCount : list Command :=
  Log "Get prebuilt rules count" [] :: getPrebuiltRulesStatus.

(** [export const waitTillPrebuiltRulesReadyToInstall = () => ...] *)
Definition waitTillPrebuiltRulesReadyToInstall : list Command :=
  [WaitUntil getAvailablePrebuiltRulesCount
     (fun response => bool_decide (0 < prebuiltRulesCount response))
     2000%N 60000%N].

(** [export const excessivelyInstallAllPrebuiltRules = () => ...] *)
Definition excessivelyInstallAllPrebuiltRules : list Command :=
  Log "Install prebuilt rules (heavy request)" []
  :: waitTillPrebuiltRulesReadyToInstall ++ installAllPrebuiltRulesRequest.

(** The URL [createNewRuleAsset] writes a rule asset to. *)
Definition ruleAssetUrl (index : string) (rule : RuleAsset) : string :=
  ELASTICSEARCH_URL +:+ "/" +:+ index +:+ "/_doc/security-rule:"
  +:+ rule_id rule +:+ "?refresh".

(** [export const createNewRuleAsset = ({ index = '.kibana_security_solution',
    rule = SAMPLE_PREBUILT_RULE }) => ...] *)
Definition createNewRuleAsset (index : option string) (rule : option RuleAsset)
    : list Command :=
  let index := default ".kibana_security_solution" index in
  let rule := default SAMPLE_PREBUILT_RULE rule in
  let url := ruleAssetUrl index rule in
  [Log "URL" [TextArg url];
   WaitUntil
     [Request
        (mkRequest "PUT" url
           [("kbn-xsrf", "cypress-creds");
            ("x-elastic-internal-origin", "security-solution");
            ("Content-Type", "application/json")]
           false (RuleBody rule))]
     (fun response => bool_decide (status response = 200))
     500%N 12000%N].

(** [bulkIndexRequestBody] of [bulkCreateRuleAssets]: the [reduce] over
    the rules, from the empty text. *)
Definition bulkIndexRequestBody (index : string) (rules : list RuleAsset) : string :=
  foldl
    (fun body rule =>
       let indexOperation :=
         JObject [("index", JObject [("_index", JString index);
                                     ("_id", JString (rule_id rule))])] in
       let documentData := stringifyRule rule in
       body +:+ stringify indexOperation +:+ newline +:+ documentData +:+ newline)
    "" rules.

(** [export const bulkCreateRuleAssets = ({ index = '.kibana_security_solution',
    rules = [SAMPLE_PREBUILT_RULE] }) => ...] *)
Definition bulkCreateRuleAssets (index : option string)
    (rules : option (list RuleAsset)) : list Command :=
  let index := default ".kibana_security_solution" index in
  let rules := default [SAMPLE_PREBUILT_RULE] rules in
  let url := ELASTICSEARCH_URL +:+ "/" +:+ index +:+ "/_bulk" in
  [Request
     (mkRequest "PUT" (ELASTICSEARCH_URL +:+ "/" +:+ index +:+ "/_mapping?refresh")
        [("Content-Type", "application/json");
         ("x-elastic-internal-origin", "security-solution")]
        true (JsonBody (JObject [("dynamic", JBool true)])));
   WaitUntil
     [Request
        (mkRequest "POST" url
           [("kbn-xsrf", "cypress-creds");
            ("x-elastic-internal-origin", "security-solution");
            ("Content-Type", "application/json")]
           false (TextBody (bulkIndexRequestBody index rules)))]
     (fun response => bool_decide (status response = 200))
     500%N 12000%N].

(** [export const getRuleAssets = (index = '.kibana_security_solution') => ...] *)
Definition getRuleAssets (index : option string) : list Command :=
  let index := default ".kibana_security_solution" index in
  [Request
     (mkRequest "GET" (ELASTICSEARCH_URL +:+ "/" +:+ index +:+ "/_search?size=10000")
        [("kbn-xsrf", "cypress-creds");
         ("x-elastic-internal-origin", "security-solution");
         ("Content-Type", "application/json")]
        false
        (JsonBody
           (JObject
              [("query",
                JObject [("term",
                          JObject [("type",
                                    JObject [("value", JString "security-rule")])])])])))].

(** [export const preventPrebuiltRulesPackageInstallation = () => ...] *)
Definition preventPrebuiltRulesPackageInstallation : list Command :=
  [Intercept "POST" "/api/fleet/epm/packages/_bulk*" (JObject []);
   Intercept "POST" "/api/fleet/epm/packages/security_detection_engine/*" (JObject [])].

(** [export const installPrebuiltRuleAssets = (ruleAssets) => ...]; the
    [forEach] adds the commands of each rule in turn. *)
Definition installPrebuiltRuleAssets (ruleAssets : list RuleAsset) : list Command :=
  Log "Create mocked available to install prebuilt rules" [NumberArg (length ruleAssets)]
  :: preventPrebuiltRulesPackageInstallation
  ++ foldl (fun queue rule => queue ++ createNewRuleAsset None (Some rule)) [] ruleAssets.

(** [export const createAndInstallMockedPrebuiltRules = ({ rules: ruleAssets,
    installToKibana = true }) => ...] *)
Definition createAndInstallMockedPrebuiltRules (ruleAssets : list RuleAsset)
    (installToKibana : option bool) : list Command :=
  let installToKibana := default true installToKibana in
  installPrebuiltRuleAssets ruleAssets
  ++ (if installToKibana
      then Log "Install prebuilt rules" [NumberArg (length ruleAssets)]
           :: installAllPrebuiltRulesRequest
      else []).

(** The requests a queue sends by itself, outside any poll. *)
Definition directRequests (queue : list Command) : list RequestOptions :=
  flat_map (fun command =>
              match command with
              | Request options => [options]
              | _ => []
              end) queue.

(** The requests the polls of a queue send at each of their checks. *)
Definition polledRequests (queue : list Command) : list RequestOptions :=
  flat_map (fun command =>
              match command with
              | WaitUntil check _ _ _ => directRequests check
              | _ => []
              end) queue.

(** The interceptions a queue sets up. *)
Definition interceptions (queue : list Command) : list (string * string) :=
  flat_map (fun command =>
              match command with
              | Intercept method urlPattern _ => [(method, urlPattern)]
              | _ => []
              end) queue.

End Rules.

(** *** Sample rule assets: a rule asset is its id, printed in braces. *)

Definition sampleStringify (json : Json) : string :=
  match json with
  | JObject [(_, JObject [(_, JString index); (_, JString ruleId)])] =>
      "{index " +:+ index +:+ " " +:+ ruleId +:+ "}"
  | _ => "{}"
  end.

Definition sampleStringifyRule (rule : string) : string :=
  "{rule " +:+ rule +:+ "}".

End PrebuiltRules.

(** * Properties of the retry policy *)

Module RetryFacts.
Import Retry.
Import TransformManager (EsError(..)).

Section Policy.
Context {Env X T : Type}.
Variable isTransient : X -> bool.
Implicit Types (op : @RetryableOperation Env X T) (cfg : RetryConfig).
Implicit Types (w : World Env X) (errs : list X).

Lemma attemptFrom_success op cfg budget attempt w v :
  fst (op (env w)) = Ok v ->
  attemptFrom isTransient op cfg budget attempt w
  = (Ok v, invoked (withEnv (snd (op (env w))) w)).
Proof.
  intros Hop. destruct budget; simpl;
    destruct (op (env w)) as [r s]; simpl in *; subst r; reflexivity.
Qed.

Lemma attemptFrom_fatal op cfg budget attempt w e :
  fst (op (env w)) = Err e -> isTransient e = false ->
  attemptFrom isTransient op cfg budget attempt w
  = (Err (FatalError e),
     logged ErrorLevel (FatalFailure e) (invoked (withEnv (snd (op (env w))) w))).
Proof.
  intros Hop Hfatal. destruct budget; simpl;
    destruct (op (env w)) as [r s]; simpl in *; subst r;
    rewrite Hfatal; reflexivity.
Qed.

Lemma attemptFrom_exhausted op cfg attempt w e :
  fst (op (env w)) = Err e -> isTransient e = true ->
  attemptFrom isTransient op cfg 0 attempt w
  = (Err (RetriesExhaustedError e), invoked (withEnv (snd (op (env w))) w)).
Proof.
  intros Hop Htransient. simpl.
  destruct (op (env w)) as [r s]; simpl in *; subst r.
  rewrite Htransient; reflexivity.
Qed.

Lemma attemptFrom_retry op cfg budget attempt w e :
  fst (op (env w)) = Err e -> isTransient e = true ->
  attemptFrom isTransient op cfg (S budget) attempt w
  = attemptFrom isTransient op cfg budget (S attempt)
      (slept (baseDelay cfg * 2 ^ attempt)
         (logged WarnLevel (RetryAttempt attempt e)
            (invoked (withEnv (snd (op (env w))) w)))).
Proof.
  intros Hop Htransient. simpl.
  destruct (op (env w)) as [r s]; simpl in *; subst r.
  rewrite Htransient; reflexivity.
Qed.

(** A run of transient failures within the budget is retried through. *)
Lemma attemptFrom_transients op cfg errs :
  forall budget attempt w,
    Forall (fun e => isTransient e = true) errs ->
    failsWith op errs (env w) ->
    attemptFrom isTransient op cfg (length errs + budget) attempt w
    = attemptFrom isTransient op cfg budget (attempt + length errs)
        (afterRetries op cfg attempt errs w).
Proof.
  induction errs as [|e errs IH]; intros budget attempt w Htr Hfail.
  - unfold afterRetries; simpl. rewrite !app_nil_r, !Nat.add_0_r.
    destruct w; reflexivity.
  - inversion Htr as [|? ? He Htr']; subst.
    destruct Hfail as [Hop Hfail].
    change (length (e :: errs) + budget) with (S (length errs + budget)).
    rewrite (attemptFrom_retry _ _ _ _ _ e Hop He).
    rewrite IH; [|assumption|exact Hfail].
    f_equal; [simpl; lia|].
    unfold afterRetries, slept, logged, invoked, withEnv, retryEntry; simpl.
    rewrite <- !app_assoc; simpl.
    rewrite !Nat.add_0_r.
    f_equal; [| |lia].
    + do 2 f_equal. apply imap_ext; intros k x _; simpl.
      do 2 f_equal; lia.
    + do 2 f_equal. apply imap_ext; intros k x _; simpl.
      replace (attempt + S k) with (S (attempt + k)) by lia.
      rewrite Nat.pow_succ_r'. lia.
Qed.

(** What the policy rejects with is an error of the operation, classified. *)
Lemma attemptFrom_rejection op cfg :
  forall budget attempt w x w',
    attemptFrom isTransient op cfg budget attempt w = (Err x, w') ->
    exists e s,
      fst (op s) = Err e /\ (x = FatalError e \/ x = RetriesExhaustedError e).
Proof.
  induction budget as [|budget IH]; intros attempt w x w'; simpl;
    destruct (op (env w)) as [[v|e] s] eqn:Hop; try discriminate;
    destruct (isTransient e); intros Hrun.
  - injection Hrun as <- _. exists e, (env w). rewrite Hop. auto.
  - injection Hrun as <- _. exists e, (env w). rewrite Hop. auto.
  - exact (IH _ _ _ _ Hrun).
  - injection Hrun as <- _. exists e, (env w). rewrite Hop. auto.
Qed.

(** A map over the positions of a list is a map over their numbers. *)
Lemma imap_index_seq {B} (f : nat -> B) (a : nat) errs :
  imap (fun k _ => f (a + k)) errs = map f (seq a (length errs)).
Proof.
  revert a. induction errs as [|e errs IH]; intros a; [reflexivity|].
  simpl. rewrite Nat.add_0_r. f_equal.
  rewrite <- IH. apply imap_ext; intros k x _; simpl.
  f_equal; lia.
Qed.

(** Failing transiently on every attempt uses up the budget. *)
Lemma attemptFrom_all_transient op cfg :
  forall budget attempt w,
    (forall k, k <= budget ->
       exists e, fst (op (envAfter op k (env w))) = Err e /\ isTransient e = true) ->
    exists last w',
      fst (op (envAfter op budget (env w))) = Err last /\
      isTransient last = true /\
      attemptFrom isTransient op cfg budget attempt w
      = (Err (RetriesExhaustedError last), w') /\
      invocations w' = invocations w + (budget + 1) /\
      policyRuns w' = policyRuns w.
Proof.
  induction budget as [|budget IH]; intros attempt w Hall.
  - destruct (Hall 0) as (e & Hop & He); [lia|]. simpl in Hop.
    exists e; eexists. rewrite (attemptFrom_exhausted _ _ _ _ e Hop He).
    repeat split; try assumption; simpl; lia.
  - destruct (Hall 0) as (e & Hop & He); [lia|]. simpl in Hop.
    rewrite (attemptFrom_retry _ _ _ _ _ e Hop He).
    set (w2 := slept _ _).
    destruct (IH (S attempt) w2) as (last & w' & Hlast & Htr & Hrun & Hinv & Hpol).
    { intros k Hk. destruct (Hall (S k)) as (e' & Hop' & He'); [lia|].
      exists e'; split; [exact Hop'|exact He']. }
    exists last, w'. repeat split; [exact Hlast|exact Htr|exact Hrun| |].
    + rewrite Hinv; simpl; lia.
    + rewrite Hpol; reflexivity.
Qed.

(** C2: when every attempt fails with a transient error, [executeWithRetry]
    invokes the operation exactly [maxRetries + 1] times and rejects with a
    [RetriesExhaustedError] that wraps the error of the last attempt; the
    caller tells it from a fatal error, which is never of that shape. *)
Theorem executeWithRetry_exhausts_retries op cfg w :
  (forall k, k <= maxRetries cfg ->
     exists e, fst (op (envAfter op k (env w))) = Err e /\ isTransient e = true) ->
  exists last w',
    fst (op (envAfter op (maxRetries cfg) (env w))) = Err last /\
    isTransient last = true /\
    executeWithRetry isTransient op cfg w = (Err (RetriesExhaustedError last), w') /\
    invocations w' = invocations w + (maxRetries cfg + 1) /\
    isRetriesExhausted (RetriesExhaustedError last) = true /\
    (forall fatal : X,
       isRetriesExhausted (FatalError fatal) = false /\
       RetriesExhaustedError last <> FatalError fatal).
Proof.
  intros Hall. unfold executeWithRetry.
  destruct (attemptFrom_all_transient op cfg (maxRetries cfg) 0 (entered w) Hall)
    as (last & w' & Hlast & Htr & Hrun & Hinv & _).
  exists last, w'. repeat split; try assumption; try reflexivity.
  discriminate.
Qed.

(** C3: when the first [N] attempts fail with the transient errors [errs]
    ([N] their number, below [maxRetries]) and the next attempt resolves to
    [v], [executeWithRetry] resolves to [v]; it logs exactly [N] retries,
    the one numbered [k] with its attempt count [k] and the error of that
    attempt, and waits [baseDelay * 2^k] before it. *)
Theorem executeWithRetry_succeeds_after_transients op cfg w errs v :
  length errs < maxRetries cfg ->
  Forall (fun e => isTransient e = true) errs ->
  failsWith op errs (env w) ->
  fst (op (envAfter op (length errs) (env w))) = Ok v ->
  exists w',
    executeWithRetry isTransient op cfg w = (Ok v, w') /\
    logs w' = logs w ++ imap (fun k e => mkLogEntry WarnLevel (RetryAttempt k e)) errs /\
    delays w' = delays w ++ map (fun k => baseDelay cfg * 2 ^ k) (seq 0 (length errs)) /\
    invocations w' = invocations w + length errs + 1.
Proof.
  intros Hlen Htr Hfail Hok. unfold executeWithRetry.
  replace (maxRetries cfg)
    with (length errs + (maxRetries cfg - length errs)) by lia.
  rewrite (attemptFrom_transients op cfg errs _ 0 (entered w) Htr Hfail).
  rewrite (attemptFrom_success op cfg _ _
             (afterRetries op cfg 0 errs (entered w)) v Hok).
  eexists; split; [reflexivity|]. simpl.
  repeat split; [| lia].
  f_equal. apply (imap_index_seq (fun k => baseDelay cfg * 2 ^ k) 0).
Qed.

(** C4: when the first attempt fails with an error classified as fatal,
    [executeWithRetry] invokes the operation once, retries nothing (no wait,
    no retry logged), logs one entry at error severity and propagates the
    fatal error. *)
Theorem executeWithRetry_fatal_not_retried op cfg w e :
  fst (op (env w)) = Err e ->
  isTransient e = false ->
  exists w',
    executeWithRetry isTransient op cfg w = (Err (FatalError e), w') /\
    invocations w' = invocations w + 1 /\
    env w' = snd (op (env w)) /\
    delays w' = delays w /\
    logs w' = logs w ++ [mkLogEntry ErrorLevel (FatalFailure e)].
Proof.
  intros Hop Hfatal. unfold executeWithRetry.
  rewrite (attemptFrom_fatal op cfg _ _ (entered w) e Hop Hfatal).
  eexists; split; [reflexivity|]. simpl. repeat split. lia.
Qed.

End Policy.

(** *** The theorems at work on replayed outcomes *)

(** Four transient failures against three retries: the fourth error comes
    back wrapped, after four invocations. *)
Lemma executeWithRetry_exhausts_retries_witness :
  exists w',
    executeWithRetry Mock.transientEsError Mock.replay Mock.config
      (Mock.freshReplay
         [Err (ResponseError 503); Err TimeoutError;
          Err ConnectionError; Err (ResponseError 429); Ok 5])
    = (Err (RetriesExhaustedError (ResponseError 429)), w') /\
    invocations w' = 4.
Proof.
  destruct (executeWithRetry_exhausts_retries Mock.transientEsError
              Mock.replay Mock.config
              (Mock.freshReplay
                 [Err (ResponseError 503); Err TimeoutError;
                  Err ConnectionError; Err (ResponseError 429); Ok 5]))
    as (last & w' & Hlast & _ & Hrun & Hinv & _).
  - intros k Hk. simpl in Hk.
    do 4 (destruct k as [|k]; [eexists; split; reflexivity|]). lia.
  - exists w'. rewrite Hrun. simpl in Hlast. injection Hlast as <-.
    split; [reflexivity|exact Hinv].
Defined.

(** Two transient failures, then success, with three retries allowed: two
    retries logged, waits of one and two seconds, three invocations. *)
Lemma executeWithRetry_succeeds_after_transients_witness :
  exists w',
    executeWithRetry Mock.transientEsError Mock.replay Mock.config
      (Mock.freshReplay [Err (ResponseError 503); Err TimeoutError; Ok 42])
    = (Ok 42, w') /\
    logs w' = [mkLogEntry WarnLevel (RetryAttempt 0 (ResponseError 503));
               mkLogEntry WarnLevel (RetryAttempt 1 TimeoutError)] /\
    delays w' = [1000; 2000] /\
    invocations w' = 3.
Proof.
  apply (executeWithRetry_succeeds_after_transients Mock.transientEsError
           Mock.replay Mock.config
           (Mock.freshReplay [Err (ResponseError 503); Err TimeoutError; Ok 42])
           [ResponseError 503; TimeoutError] 42).
  - simpl. lia.
  - repeat constructor.
  - simpl. repeat split.
  - reflexivity.
Defined.

(** A validation error (400) on the first attempt: one invocation, one
    entry at error severity, no wait. *)
Lemma executeWithRetry_fatal_not_retried_witness :
  exists w',
    executeWithRetry Mock.transientEsError Mock.replay Mock.config
      (Mock.freshReplay [Err (ResponseError 400); Ok 1])
    = (Err (FatalError (ResponseError 400)), w') /\
    invocations w' = 1 /\
    env w' = [Ok 1] /\
    delays w' = [] /\
    logs w' = [mkLogEntry ErrorLevel (FatalFailure (ResponseError 400))].
Proof.
  apply (executeWithRetry_fatal_not_retried Mock.transientEsError
           Mock.replay Mock.config
           (Mock.freshReplay [Err (ResponseError 400); Ok 1])
           (ResponseError 400)); reflexivity.
Defined.

End RetryFacts.

(** * Properties of the transform manager *)

Module ManagerFacts.
Import JsObject Retry TransformManager.

Section Manager.
Context {ES : Type}.
Variable handle : TransformRequest -> ES -> Reply * ES.
Variable isTransient : EsError -> bool.
Variable retryConfig : RetryConfig.
Variable generators : gmap string TransformGenerator.

Implicit Types (w : World (EsClient ES) EsError) (c : EsClient ES).
Implicit Types (req : TransformRequest) (options : TransportRequestOptions).

(** The guarded call every operation is built from. *)
Local Abbreviation guarded req options :=
  (retryTransientEsErrors isTransient retryConfig (transportRequest handle req options)).

Lemma transportRequest_sent req options c :
  sent (snd (transportRequest handle req options c)) = sent c ++ [(req, options)].
Proof.
  unfold transportRequest. destruct (handle req (server c)) as [[s| |] es']; simpl;
    [destruct (negb _ && _)|..]; reflexivity.
Qed.

Lemma transportRequest_server req options c :
  server (snd (transportRequest handle req options c)) = snd (handle req (server c)).
Proof.
  unfold transportRequest. destruct (handle req (server c)) as [[s| |] es']; simpl;
    [destruct (negb _ && _)|..]; reflexivity.
Qed.

(** A status listed in [ignore] resolves the call. *)
Lemma transportRequest_ignored req options c statusCode :
  fst (handle req (server c)) = Response statusCode ->
  statusCode ∈ ignore options ->
  fst (transportRequest handle req options c) = Ok tt.
Proof.
  intros Hreply Hin. unfold transportRequest.
  destruct (handle req (server c)) as [reply es']; simpl in *; subst reply.
  rewrite (bool_decide_eq_true_2 _ Hin). reflexivity.
Qed.

(** What the call rejects with is a status of 400 or more that is not
    listed in [ignore]. *)
Lemma transportRequest_rejection req options c statusCode :
  fst (transportRequest handle req options c) = Err (ResponseError statusCode) ->
  (statusCode ∉ ignore options) /\ 400 <= statusCode.
Proof.
  unfold transportRequest.
  destruct (handle req (server c)) as [[s| |] es']; simpl; try discriminate.
  destruct (bool_decide (s ∈ ignore options)) eqn:Hin; simpl; [discriminate|].
  destruct (bool_decide (400 <= s)) eqn:Hbad; simpl; [|discriminate].
  intros [= <-]. split.
  - apply bool_decide_eq_false in Hin. exact Hin.
  - apply bool_decide_eq_true in Hbad. exact Hbad.
Qed.

(** A call that resolves at once is neither retried nor logged. *)
Lemma retry_first_success {T} (esCall : EsClient ES -> Result EsError T * EsClient ES) w v :
  fst (esCall (env w)) = Ok v ->
  retryTransientEsErrors isTransient retryConfig esCall w
  = (Ok v, invoked (withEnv (snd (esCall (env w))) (entered w))).
Proof.
  intros Hok. unfold retryTransientEsErrors, executeWithRetry.
  apply (RetryFacts.attemptFrom_success isTransient esCall retryConfig _ _ (entered w) v Hok).
Qed.

Lemma bind_run {A B} (m : M (EsClient ES) EsError A)
    (k : A -> M (EsClient ES) EsError B) w :
  bind m k w
  = match m w with
    | (Ok a, w') => k a w'
    | (Err err, w') => (Err err, w')
    end.
Proof. reflexivity. Qed.

(** [try { await body } catch (err) { this.logger.error(text); throw err; }] *)
Lemma tryCatch_log_rethrow {A} (body : M (EsClient ES) EsError A) (text : string) w :
  tryCatch body (fun err => (logger_error text ;;; throw err)%manager) w
  = match body w with
    | (Ok a, w') => (Ok a, w')
    | (Err err, w') => (Err err, logged ErrorLevel (Message text) w')
    end.
Proof.
  unfold tryCatch. destruct (body w) as [[a|err] w']; reflexivity.
Qed.

(** Whatever the backend answers, the retry policy sends one and the same
    request, at least once and at most [budget + 1] times. *)
Lemma attemptFrom_requests req options :
  forall budget attempt w,
    exists n,
      n <= budget /\
      sent (env (snd (attemptFrom isTransient (transportRequest handle req options)
                        retryConfig budget attempt w)))
      = sent (env w) ++ replicate (S n) (req, options).
Proof.
  induction budget as [|budget IH]; intros attempt w; simpl;
    pose proof (transportRequest_sent req options (env w)) as Hsent;
    destruct (transportRequest handle req options (env w)) as [[v|e] c];
    simpl in Hsent.
  - exists 0; split; [lia|exact Hsent].
  - exists 0; split; [lia|]. destruct (isTransient e); exact Hsent.
  - exists 0; split; [lia|exact Hsent].
  - destruct (isTransient e).
    + match goal with |- context [attemptFrom _ _ _ _ _ ?w2] =>
        destruct (IH (S attempt) w2) as (n & Hn & Hrun) end.
      exists (S n); split; [lia|]. rewrite Hrun. simpl. rewrite Hsent.
      rewrite <- app_assoc. reflexivity.
    + exists 0; split; [lia|exact Hsent].
Qed.

Lemma guarded_requests req options w :
  exists n,
    n <= maxRetries retryConfig /\
    issued w (snd (guarded req options w)) = replicate (S n) (req, options).
Proof.
  unfold retryTransientEsErrors, executeWithRetry, issued.
  destruct (attemptFrom_requests req options (maxRetries retryConfig) 0 (entered w))
    as (n & Hn & Hrun).
  exists n; split; [exact Hn|]. rewrite Hrun. simpl.
  rewrite drop_app_length. reflexivity.
Qed.

(** An ignored status is never behind the failure of a guarded call. *)
Lemma guarded_rejection req options w x w' statusCode :
  guarded req options w = (Err x, w') ->
  statusCode ∈ ignore options ->
  x <> FatalError (ResponseError statusCode) /\
  x <> RetriesExhaustedError (ResponseError statusCode).
Proof.
  unfold retryTransientEsErrors, executeWithRetry. intros Hrun Hin.
  destruct (RetryFacts.attemptFrom_rejection _ _ _ _ _ _ _ _ Hrun)
    as (e & c & Hop & Hx).
  split; intros ->; destruct Hx as [[= <-]|[= <-]];
    apply transportRequest_rejection in Hop; destruct Hop as [Hout _];
    exact (Hout Hin).
Qed.

(** The pattern of the five operations logs once and rethrows. *)
Lemma tryCatch_logsOnceAndRethrows {A} (body : M (EsClient ES) EsError A) (text : string) :
  logsOnceAndRethrows body
    (tryCatch body (fun err => (logger_error text ;;; throw err)%manager)) text.
Proof.
  split.
  - intros w err w1 Hcall. rewrite tryCatch_log_rethrow, Hcall. reflexivity.
  - intros w b w' Hrun. rewrite tryCatch_log_rethrow in Hrun.
    destruct (body w) as [[a|err] w1]; [|discriminate].
    injection Hrun as _ <-. exists a; reflexivity.
Qed.

(** An operation whose guarded call resolves at its first attempt, the
    backend having answered with a status the operation ignores. *)
Ltac resolves_on_ignored status Hreply :=
  rewrite tryCatch_log_rethrow;
  rewrite (retry_first_success _ _ tt);
  [|apply (transportRequest_ignored _ _ _ status Hreply); simpl; set_solver].

(** Logging and rethrowing sends nothing. *)
Lemma tryCatch_issued {A} (body : M (EsClient ES) EsError A) (text : string) w :
  issued w (snd (tryCatch body (fun err => (logger_error text ;;; throw err)%manager) w))
  = issued w (snd (body w)).
Proof.
  rewrite tryCatch_log_rethrow. destruct (body w) as [[a|err] w']; reflexivity.
Qed.

(** C1 (amended): for a definition whose indicator type has no generator
    and is not the name of a property that every object inherits from
    [Object.prototype], [install] rejects with
    [Error "Unsupported indicator type [<type>]"], having logged one entry at
    error severity and nothing else: no request reached the backend client,
    the retry policy was not entered, nothing was waited for. *)
Theorem install_unsupported_indicator_type (slo : SLO) w :
  generators !! type (indicator slo) = None ->
  type (indicator slo) ∉ objectPrototypeKeys ->
  exists w',
    install handle isTransient retryConfig generators slo w
    = (Err (Error ("Unsupported indicator type [" +:+ type (indicator slo) +:+ "]")), w') /\
    env w' = env w /\
    issued w w' = [] /\
    invocations w' = invocations w /\
    policyRuns w' = policyRuns w /\
    delays w' = delays w /\
    logs w' = logs w ++
      [mkLogEntry ErrorLevel
         (Message ("No transform generator found for indicator type ["
                   +:+ type (indicator slo) +:+ "]"))].
Proof.
  intros Hnone Hown. unfold install, member. rewrite Hnone.
  rewrite (bool_decide_eq_false_2 _ Hown).
  eexists; split; [reflexivity|]. simpl. repeat split.
  unfold issued; simpl. apply drop_all.
Qed.

(** C5: when the backend answers the start request with a conflict (409),
    [start] resolves; it has sent one request and retried nothing. *)
Theorem start_tolerates_conflict (transformId : TransformId) w :
  fst (handle (StartTransform transformId) (server (env w))) = Response 409 ->
  exists w',
    start handle isTransient retryConfig transformId w = (Ok tt, w') /\
    issued w w' = [(StartTransform transformId, mkOptions [409])] /\
    invocations w' = invocations w + 1 /\
    delays w' = delays w /\
    logs w' = logs w.
Proof.
  intros Hreply. unfold start. resolves_on_ignored 409 Hreply.
  eexists; split; [reflexivity|]. simpl. repeat split; [|lia].
  unfold issued; simpl. rewrite transportRequest_sent.
  rewrite drop_app_length. reflexivity.
Qed.

(** C6: when the backend answers not-found (404), [stop] resolves, and so
    does [uninstall], after one request and with nothing logged; and no
    failure of [stop] or [uninstall], at whatever attempt, is a not-found
    answer. *)
Theorem stop_and_uninstall_tolerate_not_found :
  (forall (transformId : TransformId) w,
     fst (handle (StopTransform transformId true true) (server (env w))) = Response 404 ->
     exists w',
       stop handle isTransient retryConfig transformId w = (Ok tt, w') /\
       issued w w' = [(StopTransform transformId true true, mkOptions [404])] /\
       logs w' = logs w) /\
  (forall (transformId : TransformId) w,
     fst (handle (DeleteTransform transformId true) (server (env w))) = Response 404 ->
     exists w',
       uninstall handle isTransient retryConfig transformId w = (Ok tt, w') /\
       issued w w' = [(DeleteTransform transformId true, mkOptions [404])] /\
       logs w' = logs w) /\
  (forall (transformId : TransformId) w err w',
     stop handle isTransient retryConfig transformId w = (Err err, w') \/
     uninstall handle isTransient retryConfig transformId w = (Err err, w') ->
     err <> FatalError (ResponseError 404) /\
     err <> RetriesExhaustedError (ResponseError 404)).
Proof.
  repeat apply conj.
  - intros transformId w Hreply. unfold stop. resolves_on_ignored 404 Hreply.
    eexists; split; [reflexivity|]. simpl. split; [|reflexivity].
    unfold issued; simpl. rewrite transportRequest_sent, drop_app_length.
    reflexivity.
  - intros transformId w Hreply. unfold uninstall. resolves_on_ignored 404 Hreply.
    eexists; split; [reflexivity|]. simpl. split; [|reflexivity].
    unfold issued; simpl. rewrite transportRequest_sent, drop_app_length.
    reflexivity.
  - intros transformId w err w' [Hrun|Hrun];
      [unfold stop in Hrun|unfold uninstall in Hrun];
      rewrite tryCatch_log_rethrow in Hrun;
      match type of Hrun with
      | context [retryTransientEsErrors _ _ ?call w] =>
          destruct (retryTransientEsErrors isTransient retryConfig call w)
            as [[a|x] w1] eqn:Hcall
      end; try discriminate;
      injection Hrun as <- _;
      apply (guarded_rejection _ _ _ _ _ 404 Hcall); simpl; set_solver.
Qed.

(** C8: for a definition whose indicator type has a generator, an [install]
    that resolves returns the [transform_id] of the parameters the generator
    produced for the definition, and it resolves exactly when the guarded
    put of these parameters does; the requests it sent are that put. *)
Theorem install_returns_generated_id (slo : SLO) (generator : TransformGenerator) w :
  generators !! type (indicator slo) = Some generator ->
  (forall (transformId : TransformId) w',
     install handle isTransient retryConfig generators slo w = (Ok transformId, w') ->
     transformId = transform_id (getTransformParams generator slo) /\
     guarded (PutTransform (getTransformParams generator slo)) (mkOptions []) w = (Ok tt, w') /\
     exists n,
       issued w w' = replicate (S n) (PutTransform (getTransformParams generator slo), mkOptions [])) /\
  (forall w',
     guarded (PutTransform (getTransformParams generator slo)) (mkOptions []) w = (Ok tt, w') ->
     install handle isTransient retryConfig generators slo w
     = (Ok (transform_id (getTransformParams generator slo)), w')).
Proof.
  intros Hsome. unfold install, member. rewrite Hsome. cbv zeta.
  rewrite bind_run, tryCatch_log_rethrow. unfold ret.
  destruct (guarded_requests (PutTransform (getTransformParams generator slo))
              (mkOptions []) w) as (n & _ & Hsent).
  destruct (guarded _ _ w) as [[[]|err] w1]; simpl in Hsent.
  - split.
    + intros transformId w' Heq. injection Heq as <- <-.
      repeat split. exists n. exact Hsent.
    + intros w' Heq. injection Heq as <-. reflexivity.
  - split; intros; discriminate.
Qed.

(** C9: whatever the backend answers, [stop] sends at least one request
    and every request it sends is the stop of that transform with
    [wait_for_completion] set. *)
Theorem stop_waits_for_completion (transformId : TransformId) w :
  issued w (snd (stop handle isTransient retryConfig transformId w)) <> [] /\
  Forall (fun r => exists force options,
            r = (StopTransform transformId true force, options) /\
            waitForCompletionOf (fst r) = Some true)
         (issued w (snd (stop handle isTransient retryConfig transformId w))).
Proof.
  unfold stop. rewrite tryCatch_issued.
  destruct (guarded_requests (StopTransform transformId true true) (mkOptions [404]) w)
    as (n & _ & ->).
  split; [discriminate|].
  apply Forall_replicate. eexists _, _; split; reflexivity.
Qed.

(** C10: whatever the backend answers and whatever state the transform is
    in, [stop] and [uninstall] each send at least one request, and every
    request they send has [force] set: [stop] sends the forced stop of the
    transform, once or more, and nothing else; [uninstall] sends the forced
    delete, once or more, and nothing before it. *)
Theorem stop_and_uninstall_force (transformId : TransformId) w :
  (exists n,
     issued w (snd (stop handle isTransient retryConfig transformId w))
     = replicate (S n) (StopTransform transformId true true, mkOptions [404])) /\
  (exists n,
     issued w (snd (uninstall handle isTransient retryConfig transformId w))
     = replicate (S n) (DeleteTransform transformId true, mkOptions [404])) /\
  issued w (snd (stop handle isTransient retryConfig transformId w)) <> [] /\
  issued w (snd (uninstall handle isTransient retryConfig transformId w)) <> [] /\
  Forall (fun r => forceOf (fst r) = Some true)
         (issued w (snd (stop handle isTransient retryConfig transformId w))) /\
  Forall (fun r => forceOf (fst r) = Some true)
         (issued w (snd (uninstall handle isTransient retryConfig transformId w))).
Proof.
  unfold stop, uninstall. rewrite !tryCatch_issued.
  destruct (guarded_requests (StopTransform transformId true true) (mkOptions [404]) w)
    as (n & _ & ->).
  destruct (guarded_requests (DeleteTransform transformId true) (mkOptions [404]) w)
    as (m & _ & ->).
  split; [exists n; reflexivity|]. split; [exists m; reflexivity|].
  split; [discriminate|]. split; [discriminate|].
  split; apply Forall_replicate; reflexivity.
Qed.

(** C7: in each of the five operations, an error the guarded backend call
    rejects with (the statuses in [ignore] never are one) reaches the caller
    unchanged, after the manager has logged one entry at error severity; the
    entry names the operation ([create] for install, [delete] for uninstall)
    and the transform id, or the indicator type for install.  An operation
    resolves only when its guarded call did: no error is swallowed. *)
Theorem failures_logged_once_and_rethrown :
  (forall (slo : SLO) (generator : TransformGenerator),
     generators !! type (indicator slo) = Some generator ->
     logsOnceAndRethrows
       (guarded (PutTransform (getTransformParams generator slo)) (mkOptions (ignorable Install)))
       (install handle isTransient retryConfig generators slo)
       (failureText Install (type (indicator slo)))) /\
  (forall transformId : TransformId,
     logsOnceAndRethrows
       (guarded (PreviewTransform transformId) (mkOptions (ignorable Preview)))
       (preview handle isTransient retryConfig transformId)
       (failureText Preview transformId)) /\
  (forall transformId : TransformId,
     logsOnceAndRethrows
       (guarded (StartTransform transformId) (mkOptions (ignorable Start)))
       (start handle isTransient retryConfig transformId)
       (failureText Start transformId)) /\
  (forall transformId : TransformId,
     logsOnceAndRethrows
       (guarded (StopTransform transformId true true) (mkOptions (ignorable Stop)))
       (stop handle isTransient retryConfig transformId)
       (failureText Stop transformId)) /\
  (forall transformId : TransformId,
     logsOnceAndRethrows
       (guarded (DeleteTransform transformId true) (mkOptions (ignorable Uninstall)))
       (uninstall handle isTransient retryConfig transformId)
       (failureText Uninstall transformId)) /\
  (forall (o : Operation) (subject : string),
     mentions (verb o) (failureText o subject) /\
     mentions subject (failureText o subject)).
Proof.
  repeat apply conj;
    try (intros transformId; apply tryCatch_logsOnceAndRethrows).
  - intros slo generator Hsome.
    destruct (tryCatch_logsOnceAndRethrows
                (guarded (PutTransform (getTransformParams generator slo)) (mkOptions []))
                ("Cannot create SLO transform for indicator type ["
                 +:+ type (indicator slo) +:+ "]")) as [Hfail Hok].
    split.
    + intros w err w1 Hcall. unfold install, member. rewrite Hsome. cbv zeta.
      rewrite bind_run, (Hfail w err w1 Hcall). reflexivity.
    + intros w b w' Hrun. unfold install, member in Hrun. rewrite Hsome in Hrun.
      cbv zeta in Hrun. rewrite bind_run in Hrun.
      match type of Hrun with
      | context [tryCatch ?body ?handler w] =>
          destruct (tryCatch body handler w) as [[a|err] w1] eqn:Htry
      end; [|discriminate].
      injection Hrun as _ <-. exact (Hok w a w1 Htry).
  - intros o subject; split.
    + exists "Cannot ". destruct o; eexists; reflexivity.
    + destruct o; eexists _, "]"; reflexivity.
Qed.

End Manager.

(** *** The theorems at work on a scripted backend *)

(** [install] of an SLO of indicator type [X] with no generator for [X]. *)
Lemma install_unsupported_indicator_type_witness :
  exists w',
    install Mock.scripted Mock.transientEsError Mock.config Mock.registry
      (Mock.sloOf "X") (Mock.fresh [])
    = (Err (Error "Unsupported indicator type [X]"), w') /\
    env w' = mkClient [] [] /\
    issued (Mock.fresh []) w' = [] /\
    invocations w' = 0 /\
    policyRuns w' = 0 /\
    delays w' = [] /\
    logs w' = [mkLogEntry ErrorLevel
                 (Message "No transform generator found for indicator type [X]")].
Proof.
  apply (install_unsupported_indicator_type Mock.scripted Mock.transientEsError
           Mock.config Mock.registry (Mock.sloOf "X") (Mock.fresh [])).
  - reflexivity.
  - refine (proj1 (bool_decide_eq_false _) _). reflexivity.
Defined.

(** C1 without its amendment fails for an indicator type that names an
    inherited property: the registry has no generator for [constructor], yet
    [install] gets past the guard, rejects with a [TypeError] and not with
    the unsupported-type error, and logs nothing. *)
Lemma install_inherited_indicator_type_counterexample :
  Mock.registry !! "constructor" = None /\
  install Mock.scripted Mock.transientEsError Mock.config Mock.registry
    (Mock.sloOf "constructor") (Mock.fresh [])
  = (Err TypeError, Mock.fresh []) /\
  ~ (exists w',
       install Mock.scripted Mock.transientEsError Mock.config Mock.registry
         (Mock.sloOf "constructor") (Mock.fresh [])
       = (Err (Error "Unsupported indicator type [constructor]"), w') /\
       logs w' = [mkLogEntry ErrorLevel
                    (Message "No transform generator found for indicator type [constructor]")]).
Proof.
  split; [reflexivity|]. split; [reflexivity|].
  intros (w' & Hrun & _). discriminate Hrun.
Qed.

(** [start("job-1")] against a backend that answers with a conflict. *)
Lemma start_tolerates_conflict_witness :
  exists w',
    start Mock.scripted Mock.transientEsError Mock.config "job-1"
      (Mock.fresh [Response 409])
    = (Ok tt, w') /\
    issued (Mock.fresh [Response 409]) w' = [(StartTransform "job-1", mkOptions [409])] /\
    invocations w' = 1 /\
    delays w' = [] /\
    logs w' = [].
Proof.
  exact (start_tolerates_conflict Mock.scripted Mock.transientEsError
           Mock.config "job-1" (Mock.fresh [Response 409]) eq_refl).
Defined.

(** [stop("job-2")] and [uninstall("job-2")] against a backend that answers
    not-found. *)
Lemma stop_and_uninstall_tolerate_not_found_witness :
  (exists w',
     stop Mock.scripted Mock.transientEsError Mock.config "job-2"
       (Mock.fresh [Response 404])
     = (Ok tt, w') /\
     issued (Mock.fresh [Response 404]) w'
     = [(StopTransform "job-2" true true, mkOptions [404])] /\
     logs w' = []) /\
  (exists w',
     uninstall Mock.scripted Mock.transientEsError Mock.config "job-2"
       (Mock.fresh [Response 404])
     = (Ok tt, w') /\
     issued (Mock.fresh [Response 404]) w'
     = [(DeleteTransform "job-2" true, mkOptions [404])] /\
     logs w' = []).
Proof.
  split.
  - exact (proj1 (stop_and_uninstall_tolerate_not_found Mock.scripted
                    Mock.transientEsError Mock.config)
             "job-2" (Mock.fresh [Response 404]) eq_refl).
  - exact (proj1 (proj2 (stop_and_uninstall_tolerate_not_found Mock.scripted
                           Mock.transientEsError Mock.config))
             "job-2" (Mock.fresh [Response 404]) eq_refl).
Defined.

(** [install] of an SLO whose indicator type has a generator, against a
    backend that accepts the put. *)
Lemma install_returns_generated_id_witness :
  install Mock.scripted Mock.transientEsError Mock.config Mock.registry
    (Mock.sloOf "sli.kql.custom") (Mock.fresh [Response 201])
  = (Ok "slo-7",
     mkWorld (mkClient [] [(PutTransform (mkPutRequest "slo-7" "{}"), mkOptions [])])
       [] [] 1 1).
Proof.
  exact (proj2 (install_returns_generated_id Mock.scripted Mock.transientEsError
                  Mock.config Mock.registry (Mock.sloOf "sli.kql.custom")
                  Mock.dummyGenerator (Mock.fresh [Response 201]) eq_refl)
           _ eq_refl).
Defined.

(** Each operation against a backend that answers 400, and [start] against
    one that answers 404, which [start] does not ignore: the error of the
    guarded call comes back, after the manager's entry. *)
Lemma failures_logged_once_and_rethrown_witness :
  (exists w',
     install Mock.scripted Mock.transientEsError Mock.config Mock.registry
       (Mock.sloOf "sli.kql.custom") (Mock.fresh [Response 400])
     = (Err (FatalError (ResponseError 400)), w') /\
     logs w' = [mkLogEntry ErrorLevel (FatalFailure (ResponseError 400));
                mkLogEntry ErrorLevel
                  (Message "Cannot create SLO transform for indicator type [sli.kql.custom]")]) /\
  (exists w',
     preview Mock.scripted Mock.transientEsError Mock.config "job-3"
       (Mock.fresh [Response 503; TimedOut; Unreachable; Response 429])
     = (Err (RetriesExhaustedError (ResponseError 429)), w') /\
     logs w' = [mkLogEntry WarnLevel (RetryAttempt 0 (ResponseError 503));
                mkLogEntry WarnLevel (RetryAttempt 1 TimeoutError);
                mkLogEntry WarnLevel (RetryAttempt 2 ConnectionError);
                mkLogEntry ErrorLevel (Message "Cannot preview SLO transform [job-3]")]) /\
  (exists w',
     start Mock.scripted Mock.transientEsError Mock.config "job-1"
       (Mock.fresh [Response 404])
     = (Err (FatalError (ResponseError 404)), w') /\
     logs w' = [mkLogEntry ErrorLevel (FatalFailure (ResponseError 404));
                mkLogEntry ErrorLevel (Message "Cannot start SLO transform [job-1]")]) /\
  (exists w',
     stop Mock.scripted Mock.transientEsError Mock.config "job-2"
       (Mock.fresh [Response 400])
     = (Err (FatalError (ResponseError 400)), w') /\
     logs w' = [mkLogEntry ErrorLevel (FatalFailure (ResponseError 400));
                mkLogEntry ErrorLevel (Message "Cannot stop SLO transform [job-2]")]) /\
  (exists w',
     uninstall Mock.scripted Mock.transientEsError Mock.config "job-2"
       (Mock.fresh [Response 409])
     = (Err (FatalError (ResponseError 409)), w') /\
     logs w' = [mkLogEntry ErrorLevel (FatalFailure (ResponseError 409));
                mkLogEntry ErrorLevel (Message "Cannot delete SLO transform [job-2]")]).
Proof.
  destruct (failures_logged_once_and_rethrown Mock.scripted Mock.transientEsError
              Mock.config Mock.registry)
    as (Hinstall & Hpreview & Hstart & Hstop & Huninstall & _).
  repeat apply conj; eexists.
  - split; [eapply (proj1 (Hinstall (Mock.sloOf "sli.kql.custom")
                             Mock.dummyGenerator eq_refl))|];
      vm_compute; reflexivity.
  - split; [eapply (proj1 (Hpreview _))|]; vm_compute; reflexivity.
  - split; [eapply (proj1 (Hstart _))|]; vm_compute; reflexivity.
  - split; [eapply (proj1 (Hstop _))|]; vm_compute; reflexivity.
  - split; [eapply (proj1 (Huninstall _))|]; vm_compute; reflexivity.
Defined.

(** [preview("job-3")] against a backend that fails transiently twice and
    then answers, with three retries allowed: three requests, two retries
    logged at warn severity, no error entry. *)
Example preview_recovers_after_two_transients :
  preview Mock.scripted Mock.transientEsError Mock.config "job-3"
    (Mock.fresh [Response 503; TimedOut; Response 200])
  = (Ok tt,
     mkWorld
       (mkClient [] (replicate 3 (PreviewTransform "job-3", mkOptions [])))
       [mkLogEntry WarnLevel (RetryAttempt 0 (ResponseError 503));
        mkLogEntry WarnLevel (RetryAttempt 1 TimeoutError)]
       [1000; 2000] 3 1).
Proof. reflexivity. Qed.

End ManagerFacts.

(** * Properties of the manager in use *)

Module LifecycleFacts.
Import JsObject Retry TransformManager Lifecycle.

Section Manager.
Context {ES : Type}.
Variable handle : TransformRequest -> ES -> Reply * ES.
Variable isTransient : EsError -> bool.
Variable retryConfig : RetryConfig.
Variable generators : gmap string TransformGenerator.

Implicit Types (w : World (EsClient ES) EsError) (c : EsClient ES).
Implicit Types (req : TransformRequest) (options : TransportRequestOptions).

Local Abbreviation guarded req options :=
  (retryTransientEsErrors isTransient retryConfig (transportRequest handle req options)).

(** The client resolves only on an answer below 400 or of an ignored
    status. *)
Lemma transportRequest_resolution req options c :
  fst (transportRequest handle req options c) = Ok tt ->
  exists statusCode,
    fst (handle req (server c)) = Response statusCode /\
    (statusCode < 400 \/ statusCode ∈ ignore options).
Proof.
  unfold transportRequest.
  destruct (handle req (server c)) as [[s| |] es']; simpl; try discriminate.
  destruct (bool_decide (s ∈ ignore options)) eqn:Hin; simpl.
  - intros _. exists s. split; [reflexivity|right].
    apply bool_decide_eq_true in Hin. exact Hin.
  - destruct (bool_decide (400 <= s)) eqn:Hbad; [discriminate|].
    intros _. exists s. split; [reflexivity|left].
    apply bool_decide_eq_false in Hbad. lia.
Qed.

(** When the client rejects, the answer, if there was one, had a status of
    400 or more that is not ignored. *)
Lemma transportRequest_failure req options c (e : EsError) statusCode :
  fst (transportRequest handle req options c) = Err e ->
  fst (handle req (server c)) = Response statusCode ->
  400 <= statusCode /\ statusCode ∉ ignore options.
Proof.
  unfold transportRequest.
  destruct (handle req (server c)) as [reply es']; simpl.
  intros Hrun ->.
  destruct (bool_decide (statusCode ∈ ignore options)) eqn:Hin;
    simpl in Hrun; [discriminate|].
  destruct (bool_decide (400 <= statusCode)) eqn:Hbad; [|discriminate].
  apply bool_decide_eq_true in Hbad. apply bool_decide_eq_false in Hin.
  split; assumption.
Qed.

(** The policy resolves on the first answer the client lets through. *)
Lemma attemptFrom_resolved req options :
  forall budget attempt w w',
    attemptFrom isTransient (transportRequest handle req options)
      retryConfig budget attempt w = (Ok tt, w') ->
    exists n statusCode,
      sent (env w') = sent (env w) ++ replicate (S n) (req, options) /\
      fst (handle req (serverAfter handle req n (server (env w)))) = Response statusCode /\
      (statusCode < 400 \/ statusCode ∈ ignore options) /\
      (forall k earlier,
         k < n ->
         fst (handle req (serverAfter handle req k (server (env w)))) = Response earlier ->
         400 <= earlier /\ earlier ∉ ignore options) /\
      server (env w') = serverAfter handle req (S n) (server (env w)).
Proof.
  induction budget as [|budget IH]; intros attempt w w'; simpl;
    pose proof (ManagerFacts.transportRequest_sent handle req options (env w)) as Hsent;
    pose proof (ManagerFacts.transportRequest_server handle req options (env w)) as Hserver;
    pose proof (transportRequest_resolution req options (env w)) as Hok;
    pose proof (transportRequest_failure req options (env w)) as Hbad;
    destruct (transportRequest handle req options (env w)) as [[[]|e] c];
    simpl in Hsent, Hserver, Hok, Hbad.
  - intros [= <-]. destruct (Hok eq_refl) as (s & Hreply & Hs).
    exists 0, s. simpl. split; [exact Hsent|]. split; [exact Hreply|].
    split; [exact Hs|]. split; [intros k earlier Hk; lia|exact Hserver].
  - destruct (isTransient e); discriminate.
  - intros [= <-]. destruct (Hok eq_refl) as (s & Hreply & Hs).
    exists 0, s. simpl. split; [exact Hsent|]. split; [exact Hreply|].
    split; [exact Hs|]. split; [intros k earlier Hk; lia|exact Hserver].
  - destruct (isTransient e); [|discriminate]. intros Hrun.
    destruct (IH _ _ _ Hrun) as (n & s & Hsent' & Hreply & Hs & Hearlier & Hserver').
    simpl in Hsent', Hreply, Hearlier, Hserver'.
    exists (S n), s. split; [|split; [|split; [|split]]].
    + rewrite Hsent', Hsent, <- app_assoc. reflexivity.
    + cbn [serverAfter]. rewrite <- Hserver. exact Hreply.
    + exact Hs.
    + intros [|k] earlier Hk Hreply'.
      * exact (Hbad e earlier eq_refl Hreply').
      * cbn [serverAfter] in Hreply'. rewrite <- Hserver in Hreply'.
        apply (Hearlier k earlier); [lia|exact Hreply'].
    + rewrite Hserver'. cbn [serverAfter]. rewrite <- Hserver. reflexivity.
Qed.

Lemma guarded_resolved req options w w' :
  guarded req options w = (Ok tt, w') ->
  resolvedOnLastAnswer handle req options w w'.
Proof.
  unfold retryTransientEsErrors, executeWithRetry. intros Hrun.
  destruct (attemptFrom_resolved _ _ _ _ _ _ Hrun)
    as (n & s & Hsent & Hreply & Hs & Hearlier & Hserver).
  exists n, s. simpl in *. split; [|split; [|split; [|split]]]; try assumption.
  unfold issued. rewrite Hsent, drop_app_length. reflexivity.
Qed.

(** A guarded call whose first answer is a 2xx: one request, no retry. *)
Lemma guarded_accepted req options w statusCode :
  fst (handle req (server (env w))) = Response statusCode ->
  200 <= statusCode < 300 ->
  exists w',
    guarded req options w = (Ok tt, w') /\
    sent (env w') = sent (env w) ++ [(req, options)] /\
    logs w' = logs w /\
    delays w' = delays w.
Proof.
  intros Hreply H2xx.
  assert (Hok : fst (transportRequest handle req options (env w)) = Ok tt).
  { unfold transportRequest.
    destruct (handle req (server (env w))) as [reply es']; simpl in *; subst reply.
    rewrite (bool_decide_eq_false_2 (400 <= statusCode)) by lia.
    rewrite andb_false_r. reflexivity. }
  rewrite (ManagerFacts.retry_first_success isTransient retryConfig _ w tt Hok).
  eexists; split; [reflexivity|]. simpl.
  rewrite ManagerFacts.transportRequest_sent. repeat split.
Qed.

(** An operation that wraps a guarded call resolves as the call does. *)
Lemma wrapped_accepted req options (text : string) w statusCode :
  fst (handle req (server (env w))) = Response statusCode ->
  200 <= statusCode < 300 ->
  exists w',
    tryCatch (guarded req options)
      (fun err => (logger_error text ;;; throw err)%manager) w = (Ok tt, w') /\
    sent (env w') = sent (env w) ++ [(req, options)] /\
    logs w' = logs w /\
    delays w' = delays w.
Proof.
  intros Hreply H2xx.
  destruct (guarded_accepted req options w statusCode Hreply H2xx)
    as (w' & Hrun & Hsent & Hlogs & Hdelays).
  exists w'. rewrite ManagerFacts.tryCatch_log_rethrow, Hrun. repeat split; assumption.
Qed.

(** X1: whatever the backend answers, at whatever attempt, a failure of
    [start] is never a conflict: the error it rejects with is not the 409
    answer, neither as a fatal error nor as the last of the retries. *)
Theorem start_never_fails_on_conflict (transformId : TransformId) w err w' :
  start handle isTransient retryConfig transformId w = (Err err, w') ->
  err <> FatalError (ResponseError 409) /\
  err <> RetriesExhaustedError (ResponseError 409).
Proof.
  unfold start. rewrite ManagerFacts.tryCatch_log_rethrow.
  destruct (guarded (StartTransform transformId) (mkOptions [409]) w)
    as [[a|x] w1] eqn:Hcall; [discriminate|].
  intros [= <- _].
  apply (ManagerFacts.guarded_rejection _ _ _ _ _ _ _ _ 409 Hcall).
  simpl. set_solver.
Qed.

(** X2: every request an operation sends addresses the transform it was called
    for, and no other: the given id for [preview], [start], [stop] and
    [uninstall], the id of the generated parameters for [install] (which
    sends nothing when the indicator type has no generator). *)
Theorem operations_address_their_transform :
  (forall (transformId : TransformId) w,
     Forall (fun r => targetOf (fst r) = transformId)
       (issued w (snd (preview handle isTransient retryConfig transformId w))) /\
     Forall (fun r => targetOf (fst r) = transformId)
       (issued w (snd (start handle isTransient retryConfig transformId w))) /\
     Forall (fun r => targetOf (fst r) = transformId)
       (issued w (snd (stop handle isTransient retryConfig transformId w))) /\
     Forall (fun r => targetOf (fst r) = transformId)
       (issued w (snd (uninstall handle isTransient retryConfig transformId w)))) /\
  (forall (slo : SLO) w,
     Forall (fun r => exists generator,
               generators !! type (indicator slo) = Some generator /\
               fst r = PutTransform (getTransformParams generator slo) /\
               targetOf (fst r) = transform_id (getTransformParams generator slo))
       (issued w (snd (install handle isTransient retryConfig generators slo w)))).
Proof.
  split.
  - intros transformId w. unfold preview, start, stop, uninstall.
    rewrite !ManagerFacts.tryCatch_issued.
    repeat split;
      match goal with
      | |- context [transportRequest handle ?req ?options] =>
          destruct (ManagerFacts.guarded_requests handle isTransient retryConfig
                      req options w) as (n & _ & ->)
      end; apply Forall_replicate; reflexivity.
  - intros slo w. unfold install, member.
    destruct (generators !! type (indicator slo)) as [generator|] eqn:Hgen;
      [|destruct (bool_decide (type (indicator slo) ∈ objectPrototypeKeys))].
    + cbv zeta. rewrite ManagerFacts.bind_run.
      destruct (ManagerFacts.guarded_requests handle isTransient retryConfig
                  (PutTransform (getTransformParams generator slo)) (mkOptions []) w)
        as (n & _ & Hsent).
      rewrite <- (ManagerFacts.tryCatch_issued _
                    ("Cannot create SLO transform for indicator type ["
                     +:+ type (indicator slo) +:+ "]")) in Hsent.
      match goal with
      | |- context [tryCatch ?body ?handler w] =>
          destruct (tryCatch body handler w) as [[a|err] w1]
      end; unfold ret; cbn [snd] in *; rewrite Hsent; apply Forall_replicate;
        exists generator; repeat split.
    + unfold issued; simpl. rewrite drop_all. constructor.
    + unfold issued; simpl. rewrite drop_all. constructor.
Qed.

(** X3: an operation resolves only on the answer of the backend to the
    last request of its run: a status below 400, or the status the operation
    ignores (409 for [start], 404 for [stop] and [uninstall], none for
    [install] and [preview]).  Every request before was the same request,
    answered with a status of 400 or more that is not ignored. *)
Theorem operations_resolve_only_when_accepted :
  (forall (slo : SLO) (generator : TransformGenerator) w (transformId : TransformId) w',
     generators !! type (indicator slo) = Some generator ->
     install handle isTransient retryConfig generators slo w = (Ok transformId, w') ->
     resolvedOnLastAnswer handle
       (PutTransform (getTransformParams generator slo)) (mkOptions []) w w') /\
  (forall (transformId : TransformId) w w',
     preview handle isTransient retryConfig transformId w = (Ok tt, w') ->
     resolvedOnLastAnswer handle (PreviewTransform transformId) (mkOptions []) w w') /\
  (forall (transformId : TransformId) w w',
     start handle isTransient retryConfig transformId w = (Ok tt, w') ->
     resolvedOnLastAnswer handle (StartTransform transformId) (mkOptions [409]) w w') /\
  (forall (transformId : TransformId) w w',
     stop handle isTransient retryConfig transformId w = (Ok tt, w') ->
     resolvedOnLastAnswer handle
       (StopTransform transformId true true) (mkOptions [404]) w w') /\
  (forall (transformId : TransformId) w w',
     uninstall handle isTransient retryConfig transformId w = (Ok tt, w') ->
     resolvedOnLastAnswer handle
       (DeleteTransform transformId true) (mkOptions [404]) w w').
Proof.
  split; [|split; [|split; [|split]]].
  - intros slo generator w transformId w' Hgen. unfold install, member. rewrite Hgen.
    cbv zeta. rewrite ManagerFacts.bind_run, ManagerFacts.tryCatch_log_rethrow.
    destruct (guarded (PutTransform (getTransformParams generator slo)) (mkOptions []) w)
      as [[[]|x] w1] eqn:Hcall; [|discriminate].
    intros [= _ <-]. exact (guarded_resolved _ _ _ _ Hcall).
  - intros transformId w w'. unfold preview.
    rewrite ManagerFacts.tryCatch_log_rethrow.
    destruct (guarded (PreviewTransform transformId) (mkOptions []) w)
      as [[[]|x] w1] eqn:Hcall; [|discriminate].
    intros [= <-]. exact (guarded_resolved _ _ _ _ Hcall).
  - intros transformId w w'. unfold start.
    rewrite ManagerFacts.tryCatch_log_rethrow.
    destruct (guarded (StartTransform transformId) (mkOptions [409]) w)
      as [[[]|x] w1] eqn:Hcall; [|discriminate].
    intros [= <-]. exact (guarded_resolved _ _ _ _ Hcall).
  - intros transformId w w'. unfold stop.
    rewrite ManagerFacts.tryCatch_log_rethrow.
    destruct (guarded (StopTransform transformId true true) (mkOptions [404]) w)
      as [[[]|x] w1] eqn:Hcall; [|discriminate].
    intros [= <-]. exact (guarded_resolved _ _ _ _ Hcall).
  - intros transformId w w'. unfold uninstall.
    rewrite ManagerFacts.tryCatch_log_rethrow.
    destruct (guarded (DeleteTransform transformId true) (mkOptions [404]) w)
      as [[[]|x] w1] eqn:Hcall; [|discriminate].
    intros [= <-]. exact (guarded_resolved _ _ _ _ Hcall).
Qed.

(** X4: against a backend that accepts every request, a transform whose
    indicator type has a generator goes through its whole life: the five
    operations resolve in turn, each after one request for the generated id,
    nothing is logged and nothing waited for. *)
Theorem lifecycle_runs_through (slo : SLO) (generator : TransformGenerator) w :
  accepting handle ->
  generators !! type (indicator slo) = Some generator ->
  exists w',
    lifecycle handle isTransient retryConfig generators slo w
    = (Ok (transform_id (getTransformParams generator slo)), w') /\
    issued w w'
    = [(PutTransform (getTransformParams generator slo), mkOptions []);
       (PreviewTransform (transform_id (getTransformParams generator slo)), mkOptions []);
       (StartTransform (transform_id (getTransformParams generator slo)), mkOptions [409]);
       (StopTransform (transform_id (getTransformParams generator slo)) true true, mkOptions [404]);
       (DeleteTransform (transform_id (getTransformParams generator slo)) true, mkOptions [404])] /\
    logs w' = logs w /\
    delays w' = delays w.
Proof.
  intros Haccepts Hgen.
  set (transformParams := getTransformParams generator slo).
  set (transformId := transform_id transformParams).
  destruct (Haccepts (PutTransform transformParams) (server (env w))) as (s1 & Hr1 & Hs1).
  destruct (wrapped_accepted (PutTransform transformParams) (mkOptions [])
              ("Cannot create SLO transform for indicator type ["
               +:+ type (indicator slo) +:+ "]") w s1 Hr1 Hs1)
    as (w1 & Hrun1 & Hsent1 & Hlogs1 & Hdelays1).
  destruct (Haccepts (PreviewTransform transformId) (server (env w1))) as (s2 & Hr2 & Hs2).
  destruct (wrapped_accepted (PreviewTransform transformId) (mkOptions [])
              ("Cannot preview SLO transform [" +:+ transformId +:+ "]") w1 s2 Hr2 Hs2)
    as (w2 & Hrun2 & Hsent2 & Hlogs2 & Hdelays2).
  destruct (Haccepts (StartTransform transformId) (server (env w2))) as (s3 & Hr3 & Hs3).
  destruct (wrapped_accepted (StartTransform transformId) (mkOptions [409])
              ("Cannot start SLO transform [" +:+ transformId +:+ "]") w2 s3 Hr3 Hs3)
    as (w3 & Hrun3 & Hsent3 & Hlogs3 & Hdelays3).
  destruct (Haccepts (StopTransform transformId true true) (server (env w3))) as (s4 & Hr4 & Hs4).
  destruct (wrapped_accepted (StopTransform transformId true true) (mkOptions [404])
              ("Cannot stop SLO transform [" +:+ transformId +:+ "]") w3 s4 Hr4 Hs4)
    as (w4 & Hrun4 & Hsent4 & Hlogs4 & Hdelays4).
  destruct (Haccepts (DeleteTransform transformId true) (server (env w4))) as (s5 & Hr5 & Hs5).
  destruct (wrapped_accepted (DeleteTransform transformId true) (mkOptions [404])
              ("Cannot delete SLO transform [" +:+ transformId +:+ "]") w4 s5 Hr5 Hs5)
    as (w5 & Hrun5 & Hsent5 & Hlogs5 & Hdelays5).
  exists w5. repeat split.
  - unfold lifecycle, install, member. rewrite Hgen. cbv zeta.
    fold transformParams.
    rewrite !ManagerFacts.bind_run, Hrun1. unfold ret at 1.
    fold transformId. unfold preview, start, stop, uninstall.
    rewrite !ManagerFacts.bind_run, Hrun2.
    rewrite !ManagerFacts.bind_run, Hrun3.
    rewrite !ManagerFacts.bind_run, Hrun4.
    rewrite !ManagerFacts.bind_run, Hrun5. reflexivity.
  - unfold issued. rewrite Hsent5, Hsent4, Hsent3, Hsent2, Hsent1.
    rewrite <- !app_assoc. rewrite drop_app_length. reflexivity.
  - congruence.
  - congruence.
Qed.

End Manager.

(** *** The theorems at work on a scripted backend *)

(** [start] against a backend that rejects the request as invalid. *)
Lemma start_never_fails_on_conflict_witness :
  FatalError (ResponseError 400) <> FatalError (ResponseError 409) /\
  FatalError (ResponseError 400) <> RetriesExhaustedError (ResponseError 409).
Proof.
  exact (start_never_fails_on_conflict Mock.scripted Mock.transientEsError
           Mock.config "job-1" (Mock.fresh [Response 400]) _ _ eq_refl).
Defined.

(** [start] against a backend that is first unavailable and then answers
    with a conflict: the second request is the one that lets it through. *)
Lemma operations_resolve_only_when_accepted_witness :
  exists w',
    start Mock.scripted Mock.transientEsError Mock.config "job-1"
      (Mock.fresh [Response 503; Response 409])
    = (Ok tt, w') /\
    resolvedOnLastAnswer Mock.scripted (StartTransform "job-1") (mkOptions [409])
      (Mock.fresh [Response 503; Response 409]) w'.
Proof.
  destruct (operations_resolve_only_when_accepted Mock.scripted
              Mock.transientEsError Mock.config Mock.registry)
    as (_ & _ & Hstart & _).
  eexists. split; [vm_compute; reflexivity|].
  apply Hstart. vm_compute; reflexivity.
Defined.

Lemma alwaysOk_accepting : accepting alwaysOk.
Proof.
  intros req es. exists 200. split; [reflexivity|lia].
Defined.

(** The whole life of a transform against a backend that answers 200. *)
Lemma lifecycle_runs_through_witness :
  exists w',
    lifecycle alwaysOk Mock.transientEsError Mock.config Mock.registry
      (Mock.sloOf "sli.kql.custom") (mkWorld (mkClient tt []) [] [] 0 0)
    = (Ok "slo-7", w') /\
    issued (mkWorld (mkClient tt []) [] [] 0 0) w'
    = [(PutTransform (mkPutRequest "slo-7" "{}"), mkOptions []);
       (PreviewTransform "slo-7", mkOptions []);
       (StartTransform "slo-7", mkOptions [409]);
       (StopTransform "slo-7" true true, mkOptions [404]);
       (DeleteTransform "slo-7" true, mkOptions [404])] /\
    logs w' = [] /\
    delays w' = [].
Proof.
  exact (lifecycle_runs_through alwaysOk Mock.transientEsError Mock.config
           Mock.registry (Mock.sloOf "sli.kql.custom") Mock.dummyGenerator
           (mkWorld (mkClient tt []) [] [] 0 0) alwaysOk_accepting eq_refl).
Defined.

End LifecycleFacts.

(** * Properties of the ES|QL query *)

Module EsqlQueryFacts.
Import JsObject EsqlQuery.

Section Fetch.
Context {DataView Hits Parsed : Type}.
Variable getTime : DataView -> TimeRange -> option RangeFilter.
Variable numberToString : Z -> string.
Variable createDataView : string -> Result Rejection DataView.
Variable transportRequest : TransportRequestParams -> Result Rejection EsqlTable.
Variable stringify : Body.t -> string.
Variable toEsQueryHits : EsqlTable -> Hits.
Variable parseAggregationResults : ParseAggregationResultsOpts (Hits := Hits) -> Parsed.

Implicit Types (dataView : DataView) (params : OnlyEsqlQueryRuleParams).
Implicit Types (alertLimit : option Z) (r : EsqlQueryResult).

(** The time range [getEsqlQuery] asks [getTime] for. *)
Local Abbreviation timeRangeOf params :=
  (mkTimeRange ("now-" +:+ numberToString (timeWindowSize params)
                +:+ timeWindowUnit params) "now").

(** The one clause of the filter [getEsqlQuery] builds. *)
Local Abbreviation clauseOf params start finish :=
  ({[ timeField params :=
        mkRangeParams start None finish (Some "strict_date_optional_time") ]}
   : gmap string RangeFilterParams).

(** Both bounds are read from the same entry, so they fail together. *)
Lemma boundOf_failure (timerangeFilter : option RangeFilter) (key : string)
    (bound : RangeFilterParams -> option string) (e : Rejection) :
  boundOf timerangeFilter key bound = Err e <->
  e = TypeError /\
  exists filter,
    timerangeFilter = Some filter /\
    query_range filter !! key = None /\
    key ∉ objectPrototypeKeys.
Proof.
  unfold boundOf, member. split.
  - destruct timerangeFilter as [filter|]; [|discriminate].
    destruct (query_range filter !! key) eqn:Hkey; [discriminate|].
    destruct (bool_decide (key ∈ objectPrototypeKeys)) eqn:Hin; [discriminate|].
    intros [= <-]. split; [reflexivity|]. exists filter.
    apply bool_decide_eq_false in Hin. repeat split; assumption.
  - intros (-> & filter & -> & Hkey & Hout). rewrite Hkey.
    rewrite (bool_decide_eq_false_2 _ Hout). reflexivity.
Qed.

(** The shape of every result of [getEsqlQuery]. *)
Lemma getEsqlQuery_result dataView params alertLimit r :
  getEsqlQuery getTime numberToString dataView params alertLimit = Ok r ->
  boundOf (getTime dataView (timeRangeOf params)) (timeField params) gte = Ok (dateStart r) /\
  boundOf (getTime dataView (timeRangeOf params)) (timeField params) lte = Ok (dateEnd r) /\
  Body.filter (query r) = [clauseOf params (dateStart r) (dateEnd r)].
Proof.
  unfold getEsqlQuery. cbv zeta.
  destruct (boundOf _ _ gte) as [start|e]; [|discriminate].
  destruct (boundOf _ _ lte) as [finish|e]; [|discriminate].
  intros [= <-]. repeat split.
Qed.

(** X5: the rule's ES|QL text goes out unchanged when no limit applies, which
    is when [alertLimit] is [undefined] and also when it is 0; any other
    limit is appended as [ | limit <n>].  The limit touches nothing else:
    the filter, the dates and the failure are the same for every limit. *)
Theorem getEsqlQuery_limit_clause dataView params :
  (forall alertLimit r,
     getEsqlQuery getTime numberToString dataView params alertLimit = Ok r ->
     (alertLimit = None \/ alertLimit = Some 0%Z ->
      Body.query (query r) = esql (esqlQuery params)) /\
     (forall limit : Z,
        alertLimit = Some limit -> limit <> 0%Z ->
        Body.query (query r)
        = esql (esqlQuery params) +:+ " | limit " +:+ numberToString limit)) /\
  (forall alertLimit alertLimit',
     match getEsqlQuery getTime numberToString dataView params alertLimit,
           getEsqlQuery getTime numberToString dataView params alertLimit' with
     | Ok r, Ok r' =>
         Body.filter (query r) = Body.filter (query r') /\
         dateStart r = dateStart r' /\
         dateEnd r = dateEnd r'
     | Err e, Err e' => e = e'
     | _, _ => False
     end).
Proof.
  split.
  - intros alertLimit r. unfold getEsqlQuery. cbv zeta.
    destruct (boundOf _ _ gte) as [start|e]; [|discriminate].
    destruct (boundOf _ _ lte) as [finish|e]; [|discriminate].
    intros [= <-]. simpl. split.
    + intros [->| ->]; reflexivity.
    + intros limit -> Hlimit. rewrite (bool_decide_eq_false_2 _ Hlimit).
      reflexivity.
  - intros alertLimit alertLimit'. unfold getEsqlQuery. cbv zeta.
    destruct (boundOf _ _ gte) as [start|e]; [|reflexivity].
    destruct (boundOf _ _ lte) as [finish|e]; [|reflexivity].
    repeat split.
Qed.

(** X6: the window asked of Elasticsearch is the window reported: the filter is
    one range clause on [params.timeField], from [dateStart] excluded to
    [dateEnd] included.  These are the bounds of the time filter of the data
    view, whose lower bound, included there ([gte]), is excluded here. *)
Theorem getEsqlQuery_window dataView params alertLimit r :
  getEsqlQuery getTime numberToString dataView params alertLimit = Ok r ->
  Body.filter (query r) = [clauseOf params (dateStart r) (dateEnd r)] /\
  (forall (filter : RangeFilter) (rangeParams : RangeFilterParams),
     getTime dataView (timeRangeOf params) = Some filter ->
     query_range filter !! timeField params = Some rangeParams ->
     dateStart r = gte rangeParams /\ dateEnd r = lte rangeParams).
Proof.
  intros Hrun.
  destruct (getEsqlQuery_result _ _ _ _ Hrun) as (Hstart & Hend & Hfilter).
  split; [exact Hfilter|].
  intros filter rangeParams Htime Hkey.
  rewrite Htime in Hstart, Hend. unfold boundOf, member in Hstart, Hend.
  rewrite Hkey in Hstart, Hend.
  injection Hstart as <-. injection Hend as <-. split; reflexivity.
Qed.

(** X7: once [getTime] has returned, [getEsqlQuery] throws in one case
    only, a [TypeError]: the data view has a time filter and its range has no
    entry for [params.timeField], own or inherited.  Without a time filter
    it does not throw: the dates are [undefined] and the clause has no
    bound. *)
Theorem getEsqlQuery_throws_on_missing_field dataView params alertLimit :
  (forall e,
     getEsqlQuery getTime numberToString dataView params alertLimit = Err e <->
     e = TypeError /\
     exists filter,
       getTime dataView (timeRangeOf params) = Some filter /\
       query_range filter !! timeField params = None /\
       timeField params ∉ objectPrototypeKeys) /\
  (getTime dataView (timeRangeOf params) = None ->
   exists r,
     getEsqlQuery getTime numberToString dataView params alertLimit = Ok r /\
     dateStart r = None /\
     dateEnd r = None /\
     Body.filter (query r) = [clauseOf params None None]).
Proof.
  split.
  - intros e. rewrite <- (boundOf_failure _ _ gte).
    unfold getEsqlQuery. cbv zeta. unfold boundOf.
    destruct (getTime dataView _) as [filter|]; [|split; discriminate].
    destruct (member (query_range filter) (timeField params));
      split; (discriminate || (intros [= <-]; reflexivity)).
  - intros Htime. unfold getEsqlQuery. cbv zeta. rewrite Htime. simpl.
    eexists; repeat split.
Qed.

Implicit Types (opts : FetchEsqlQueryOpts) (services : Services).

Local Abbreviation fetch :=
  (fetchEsqlQuery getTime numberToString createDataView transportRequest
     stringify toEsQueryHits parseAggregationResults).

(** The entry [fetchEsqlQuery] logs for a request body. *)
Local Abbreviation debugEntry opts requestBody :=
  ("ES|QL query rule (" +:+ ruleId opts +:+ ") query: " +:+ stringify requestBody).

(** X8: when [fetchEsqlQuery] rejects, either it failed before the request, on
    the data view or on the query, and then nothing was logged and nothing
    sent, or the request itself was rejected, after one debug entry and that
    one request.  The error is the one of the step that failed. *)
Theorem fetchEsqlQuery_rejects opts services e services' :
  fetch opts services = (Err e, services') ->
  (services' = services /\
   (createDataView (timeField (params opts)) = Err e \/
    exists dataView,
      createDataView (timeField (params opts)) = Ok dataView /\
      getEsqlQuery getTime numberToString dataView (params opts) (alertLimit opts) = Err e)) \/
  (exists dataView built,
     createDataView (timeField (params opts)) = Ok dataView /\
     getEsqlQuery getTime numberToString dataView (params opts) (alertLimit opts) = Ok built /\
     transportRequest (mkTransportRequest "POST" "/_esql" (query built)) = Err e /\
     debugged services' = debugged services ++ [debugEntry opts (query built)] /\
     posted services' = posted services ++ [mkTransportRequest "POST" "/_esql" (query built)]).
Proof.
  unfold fetchEsqlQuery.
  destruct (createDataView _) as [dataView|e0] eqn:Hview.
  - destruct (getEsqlQuery _ _ dataView _ _) as [built|e1] eqn:Hquery.
    + cbv zeta.
      destruct (transportRequest _) as [response|e2] eqn:Hsend; [discriminate|].
      intros [= <- <-]. right. exists dataView, built. repeat split; assumption.
    + intros [= <- <-]. left. split; [reflexivity|right].
      exists dataView. split; [reflexivity|assumption].
  - intros [= <- <-]. left. split; [reflexivity|left; reflexivity].
Qed.

(** X9: when [fetchEsqlQuery] resolves it has sent one request, a POST to
    [/_esql], and logged that request's body once before.  [numMatches] is
    the number of rows of the answer, the link is the rule's page under the
    base URL and the space, and the dates returned are the bounds of the
    range clause on [params.timeField] that the request carried. *)
Theorem fetchEsqlQuery_resolves opts services result services' :
  fetch opts services = (Ok result, services') ->
  exists request response,
    posted services' = posted services ++ [request] /\
    debugged services' = debugged services ++ [debugEntry opts (body request)] /\
    method request = "POST" /\
    path request = "/_esql" /\
    Body.filter (body request)
    = [ {[ timeField (params opts) :=
             mkRangeParams (fetchedDateStart result) None (fetchedDateEnd result)
               (Some "strict_date_optional_time") ]} ] /\
    transportRequest request = Ok response /\
    numMatches result = length (values response) /\
    link result
    = publicBaseUrl opts +:+ spacePrefix opts
      +:+ "/app/management/insightsAndAlerting/triggersActions/rule/"
      +:+ ruleId opts.
Proof.
  unfold fetchEsqlQuery.
  destruct (createDataView _) as [dataView|e0]; [|discriminate].
  destruct (getEsqlQuery _ _ dataView _ _) as [built|e1] eqn:Hquery; [|discriminate].
  cbv zeta.
  destruct (transportRequest _) as [response|e2] eqn:Hsend; [|discriminate].
  intros [= <- <-].
  destruct (getEsqlQuery_result _ _ _ _ Hquery) as (_ & _ & Hfilter).
  exists (mkTransportRequest "POST" "/_esql" (query built)), response.
  simpl. repeat split; assumption.
Qed.

End Fetch.

(** *** The theorems at work on sample services *)

(** A limit of 100, and no limit at all when it is 0. *)
Lemma getEsqlQuery_limit_clause_witness :
  (exists r,
     getEsqlQuery sampleGetTime sampleNumberToString (Some "@timestamp")
       sampleParams (Some 100%Z) = Ok r /\
     Body.query (query r) = "from logs | stats count() | limit 100") /\
  (exists r,
     getEsqlQuery sampleGetTime sampleNumberToString (Some "@timestamp")
       sampleParams (Some 0%Z) = Ok r /\
     Body.query (query r) = "from logs | stats count()").
Proof.
  destruct (getEsqlQuery_limit_clause sampleGetTime sampleNumberToString
              (Some "@timestamp") sampleParams) as [Htext _].
  split; eexists; (split; [reflexivity|]).
  - exact (proj2 (Htext (Some 100%Z) _ eq_refl) 100%Z eq_refl ltac:(discriminate)).
  - exact (proj1 (Htext (Some 0%Z) _ eq_refl) (or_intror eq_refl)).
Defined.

(** The last five minutes: the lower bound of the time filter becomes the
    excluded start. *)
Lemma getEsqlQuery_window_witness :
  exists r,
    getEsqlQuery sampleGetTime sampleNumberToString (Some "@timestamp")
      sampleParams None = Ok r /\
    dateStart r = Some "now-5m" /\
    dateEnd r = Some "now" /\
    Body.filter (query r)
    = [ {[ "@timestamp" :=
             mkRangeParams (Some "now-5m") None (Some "now")
               (Some "strict_date_optional_time") ]} ].
Proof.
  eexists. split; [reflexivity|].
  destruct (getEsqlQuery_window sampleGetTime sampleNumberToString
              (Some "@timestamp") sampleParams None _ eq_refl) as [Hfilter Hbounds].
  destruct (Hbounds _ _ eq_refl eq_refl) as [Hstart Hend].
  split; [exact Hstart|]. split; [exact Hend|].
  rewrite Hfilter, Hstart, Hend. reflexivity.
Defined.

(** A data view filtered on another field than the rule's, and a data view
    without time filter. *)
Lemma getEsqlQuery_throws_on_missing_field_witness :
  getEsqlQuery sampleGetTime sampleNumberToString (Some "event.ingested")
    sampleParams (Some 10%Z) = Err TypeError /\
  exists r,
    getEsqlQuery sampleGetTime sampleNumberToString None sampleParams (Some 10%Z) = Ok r /\
    dateStart r = None /\
    dateEnd r = None.
Proof.
  destruct (getEsqlQuery_throws_on_missing_field sampleGetTime sampleNumberToString
              (Some "event.ingested") sampleParams (Some 10%Z)) as [Hthrows _].
  destruct (getEsqlQuery_throws_on_missing_field sampleGetTime sampleNumberToString
              None sampleParams (Some 10%Z)) as [_ Hnone].
  split.
  - apply Hthrows. split; [reflexivity|]. eexists. split; [reflexivity|].
    split; [reflexivity|].
    refine (proj1 (bool_decide_eq_false _) _). reflexivity.
  - destruct (Hnone eq_refl) as (r & Hrun & Hstart & Hend & _).
    exists r. repeat split; assumption.
Defined.

(** A rule whose request is rejected by Elasticsearch: the debug entry and
    the request are there, the rejection comes back. *)
Lemma fetchEsqlQuery_rejects_witness :
  exists services',
    fetchEsqlQuery sampleGetTime sampleNumberToString sampleCreate
      rejectingTransport sampleStringify sampleHits sampleParse
      sampleOpts (mkServices [] [])
    = (Err (ServiceError "verification_exception"), services') /\
    debugged services'
    = ["ES|QL query rule (rule-1) query: from logs | stats count() | limit 100"] /\
    length (posted services') = 1.
Proof.
  eexists. split; [reflexivity|].
  destruct (fetchEsqlQuery_rejects sampleGetTime sampleNumberToString sampleCreate
              rejectingTransport sampleStringify sampleHits sampleParse
              sampleOpts (mkServices [] []) _ _ eq_refl)
    as [[Hsame _]|(dataView & built & Hview & Hquery & _ & Hdebug & Hposted)].
  - discriminate Hsame.
  - injection Hview as <-. injection Hquery as <-.
    split; [exact Hdebug|]. rewrite Hposted. reflexivity.
Defined.

(** A rule whose request is answered with two rows. *)
Lemma fetchEsqlQuery_resolves_witness :
  exists result services',
    fetchEsqlQuery sampleGetTime sampleNumberToString sampleCreate
      sampleTransport sampleStringify sampleHits sampleParse
      sampleOpts (mkServices [] [])
    = (Ok result, services') /\
    numMatches result = 2 /\
    link result
    = "https://kibana.example/s/ops/app/management/insightsAndAlerting/triggersActions/rule/rule-1" /\
    length (posted services') = 1.
Proof.
  eexists _, _. split; [reflexivity|].
  destruct (fetchEsqlQuery_resolves sampleGetTime sampleNumberToString sampleCreate
              sampleTransport sampleStringify sampleHits sampleParse
              sampleOpts (mkServices [] []) _ _ eq_refl)
    as (request & response & Hposted & _ & _ & _ & _ & Hsend & Hrows & Hlink).
  injection Hsend as <-.
  split; [exact Hrows|]. split; [exact Hlink|]. rewrite Hposted. reflexivity.
Defined.

End EsqlQueryFacts.

(** * Properties of the prebuilt rules tasks *)

Module PrebuiltRulesFacts.
Import PrebuiltRules.

Lemma append_assoc (a b c : string) : (a +:+ b) +:+ c = a +:+ b +:+ c.
Proof.
  induction a as [|ch a IH]; [reflexivity|].
  change (String ch ((a +:+ b) +:+ c) = String ch (a +:+ b +:+ c)).
  rewrite IH. reflexivity.
Qed.

Lemma append_empty_r (a : string) : a +:+ "" = a.
Proof.
  induction a as [|ch a IH]; [reflexivity|].
  change (String ch (a +:+ "") = String ch a). rewrite IH. reflexivity.
Qed.

Lemma occurrences_append (c : Ascii.ascii) (a b : string) :
  occurrences c (a +:+ b) = occurrences c a + occurrences c b.
Proof.
  induction a as [|ch a IH]; [reflexivity|].
  change (occurrences c (String ch (a +:+ b))
          = occurrences c (String ch a) + occurrences c b).
  cbn [occurrences]. rewrite IH. lia.
Qed.

Lemma lastChar_append_char (a : string) (c : Ascii.ascii) :
  lastChar (a +:+ String c EmptyString) = Some c.
Proof.
  induction a as [|ch a IH]; [reflexivity|].
  change (lastChar (String ch (a +:+ String c EmptyString)) = Some c).
  cbn [lastChar].
  destruct (a +:+ String c EmptyString) eqn:Ha; [|exact IH].
  destruct a; discriminate.
Qed.

Section Rules.
Context {RuleAsset : Type}.
Variable rule_id : RuleAsset -> string.
Variable SAMPLE_PREBUILT_RULE : RuleAsset.
Variable PERFORM_RULE_INSTALLATION_URL : string.
Variable ELASTICSEARCH_URL : string.
Variable stringify : Json -> string.
Variable stringifyRule : RuleAsset -> string.

Implicit Types (rule : RuleAsset) (rules : list RuleAsset) (index : string).

(** The index operation of a rule in a bulk body. *)
Local Abbreviation indexOperation index rule :=
  (JObject [("index", JObject [("_index", JString index);
                               ("_id", JString (rule_id rule))])]).

(** The two lines a rule adds to a bulk body. *)
Local Abbreviation linesOf index rule :=
  (stringify (indexOperation index rule) +:+ newline
   +:+ stringifyRule rule +:+ newline).

Local Abbreviation bulkBody :=
  (bulkIndexRequestBody rule_id stringify stringifyRule).

(** The [reduce] only ever appends to what it has. *)
Lemma reduce_from (index : string) rules (start : string) :
  foldl
    (fun body rule =>
       body +:+ stringify (indexOperation index rule) +:+ newline
       +:+ stringifyRule rule +:+ newline)
    start rules
  = start +:+ bulkBody index rules.
Proof.
  unfold bulkIndexRequestBody. revert start.
  induction rules as [|rule rules IH]; intros start; cbn [foldl].
  - rewrite append_empty_r. reflexivity.
  - rewrite IH. rewrite (IH ("" +:+ _)).
    change ("" +:+ linesOf index rule) with (linesOf index rule).
    rewrite append_assoc. reflexivity.
Qed.

(** One rule more in front, and two batches one after the other. *)
Lemma bulkBody_cons_app index rule rules :
  bulkBody index (rule :: rules) = linesOf index rule +:+ bulkBody index rules /\
  (forall front, bulkBody index (front ++ rule :: rules)
                 = bulkBody index front +:+ bulkBody index (rule :: rules)).
Proof.
  split.
  - unfold bulkIndexRequestBody at 1. cbn [foldl].
    rewrite reduce_from. reflexivity.
  - intros front. unfold bulkIndexRequestBody at 1.
    rewrite foldl_app. fold (bulkBody index front).
    rewrite reduce_from. reflexivity.
Qed.

(** X10: the bulk body is, rule after rule, the index operation of the rule
    (naming the index and the rule's id), a line feed, the document of the
    rule, a line feed.  No rule gives the empty body, and the body of two
    batches one after the other is the body of the first followed by the
    body of the second. *)
Theorem bulkIndexRequestBody_is_rule_by_rule index :
  bulkIndexRequestBody rule_id stringify stringifyRule index [] = "" /\
  (forall rule rules,
     bulkIndexRequestBody rule_id stringify stringifyRule index (rule :: rules)
     = stringify (JObject [("index", JObject [("_index", JString index);
                                              ("_id", JString (rule_id rule))])])
       +:+ newline +:+ stringifyRule rule +:+ newline
       +:+ bulkIndexRequestBody rule_id stringify stringifyRule index rules) /\
  (forall rules1 rules2,
     bulkIndexRequestBody rule_id stringify stringifyRule index (rules1 ++ rules2)
     = bulkIndexRequestBody rule_id stringify stringifyRule index rules1
       +:+ bulkIndexRequestBody rule_id stringify stringifyRule index rules2).
Proof.
  split; [reflexivity|]. split.
  - intros rule rules.
    rewrite (proj1 (bulkBody_cons_app index rule rules)), !append_assoc.
    reflexivity.
  - intros rules1 rules2. unfold bulkIndexRequestBody at 1.
    rewrite foldl_app. fold (bulkBody index rules1).
    rewrite reduce_from. reflexivity.
Qed.

(** X11: when the serialisations hold no line feed, as those of
    [JSON.stringify] do, the bulk body has two lines for each rule, every
    one of them closed by a line feed: twice as many line feeds as rules,
    the last of which ends the body. *)
Theorem bulkIndexRequestBody_lines index rules :
  Forall (fun rule =>
            occurrences lineFeed (stringify (indexOperation index rule)) = 0 /\
            occurrences lineFeed (stringifyRule rule) = 0) rules ->
  occurrences lineFeed (bulkBody index rules) = 2 * length rules /\
  (rules <> [] -> lastChar (bulkBody index rules) = Some lineFeed).
Proof.
  intros Hclean. split.
  - induction Hclean as [|rule rules [Hop Hdoc] _ IH]; [reflexivity|].
    destruct (bulkBody_cons_app index rule rules) as [-> _].
    rewrite !occurrences_append, IH, Hop, Hdoc. simpl. lia.
  - intros Hsome. destruct (exists_last Hsome) as (front & rule & ->).
    destruct (bulkBody_cons_app index rule []) as [_ Happ].
    rewrite (Happ front). unfold bulkIndexRequestBody at 2. simpl.
    rewrite <- !append_assoc. apply lastChar_append_char.
Qed.

(** The request that writes one rule asset. *)
Local Abbreviation putRuleAsset rule :=
  (mkRequest "PUT"
     (ruleAssetUrl rule_id ELASTICSEARCH_URL ".kibana_security_solution" rule)
     [("kbn-xsrf", "cypress-creds");
      ("x-elastic-internal-origin", "security-solution");
      ("Content-Type", "application/json")]
     false (RuleBody rule)).

(** The request that installs the prebuilt rules. *)
Local Abbreviation installRequest :=
  (mkRequest (RuleAsset := RuleAsset) "POST" PERFORM_RULE_INSTALLATION_URL
     [("kbn-xsrf", "cypress-creds");
      ("x-elastic-internal-origin", "security-solution");
      ("elastic-api-version", "1")]
     true (JsonBody (JObject [("mode", JString "ALL_RULES")]))).

Local Abbreviation createAssets rules :=
  (foldl (fun queue rule =>
            queue ++ createNewRuleAsset rule_id SAMPLE_PREBUILT_RULE
                       ELASTICSEARCH_URL None (Some rule))
     [] rules).

(** The [forEach] adds the commands of the rules one rule after the other. *)
Lemma forEach_from rules (queue : list (Command (RuleAsset := RuleAsset))) :
  foldl (fun queue rule =>
           queue ++ createNewRuleAsset rule_id SAMPLE_PREBUILT_RULE
                      ELASTICSEARCH_URL None (Some rule))
    queue rules
  = queue ++ flat_map (fun rule =>
                         createNewRuleAsset rule_id SAMPLE_PREBUILT_RULE
                           ELASTICSEARCH_URL None (Some rule)) rules.
Proof.
  revert queue. induction rules as [|rule rules IH]; intros queue; cbn [foldl flat_map].
  - rewrite app_nil_r. reflexivity.
  - rewrite IH, <- app_assoc. reflexivity.
Qed.

Lemma createAssets_requests rules :
  directRequests (createAssets rules) = [] /\
  polledRequests (createAssets rules) = map (fun rule => putRuleAsset rule) rules /\
  interceptions (createAssets rules) = [].
Proof.
  rewrite forEach_from. cbn [app].
  induction rules as [|rule rules (IHd & IHp & IHi)]; [repeat split|].
  unfold directRequests, polledRequests, interceptions in *.
  cbn [flat_map createNewRuleAsset default app map] in *.
  rewrite IHd, IHp, IHi. repeat split.
Qed.

Lemma createAssets_length rules : length (createAssets rules) = 2 * length rules.
Proof.
  rewrite forEach_from. cbn [app].
  induction rules as [|rule rules IH]; [reflexivity|].
  cbn [flat_map]. rewrite length_app, IH.
  unfold createNewRuleAsset. cbn [length]. lia.
Qed.

Lemma directRequests_app (queue1 queue2 : list (Command (RuleAsset := RuleAsset))) :
  directRequests (queue1 ++ queue2) = directRequests queue1 ++ directRequests queue2.
Proof. apply flat_map_app. Qed.

Lemma polledRequests_app (queue1 queue2 : list (Command (RuleAsset := RuleAsset))) :
  polledRequests (queue1 ++ queue2) = polledRequests queue1 ++ polledRequests queue2.
Proof. apply flat_map_app. Qed.

Lemma installPrebuiltRuleAssets_requests rules :
  directRequests
    (installPrebuiltRuleAssets rule_id SAMPLE_PREBUILT_RULE ELASTICSEARCH_URL rules) = [] /\
  polledRequests
    (installPrebuiltRuleAssets rule_id SAMPLE_PREBUILT_RULE ELASTICSEARCH_URL rules)
  = map (fun rule => putRuleAsset rule) rules.
Proof.
  destruct (createAssets_requests rules) as (Hd & Hp & _).
  unfold installPrebuiltRuleAssets.
  change (Log ?m ?a :: ?q1 ++ ?q2) with ((Log m a :: q1) ++ q2).
  rewrite directRequests_app, polledRequests_app, Hd, Hp. split; reflexivity.
Qed.

(** X12: [installPrebuiltRuleAssets] first sets up the two interceptions of the
    Fleet package installation and only then writes the assets: after the
    interceptions comes one poll for each rule, in the order of the rules,
    that puts the rule under its id in [.kibana_security_solution] without
    failing on a bad status; no request is sent outside these polls and no
    other interception is set up. *)
Theorem installPrebuiltRuleAssets_queue rules :
  exists rest,
    installPrebuiltRuleAssets rule_id SAMPLE_PREBUILT_RULE ELASTICSEARCH_URL rules
    = Log "Create mocked available to install prebuilt rules" [NumberArg (length rules)]
      :: Intercept "POST" "/api/fleet/epm/packages/_bulk*" (JObject [])
      :: Intercept "POST" "/api/fleet/epm/packages/security_detection_engine/*" (JObject [])
      :: rest /\
    interceptions rest = [] /\
    directRequests rest = [] /\
    polledRequests rest = map (fun rule => putRuleAsset rule) rules /\
    length rest = 2 * length rules.
Proof.
  exists (createAssets rules).
  destruct (createAssets_requests rules) as (Hd & Hp & Hi).
  repeat split; try assumption. apply createAssets_length.
Qed.

(** X13: [createAndInstallMockedPrebuiltRules] writes the same assets whatever
    the flag.  With [installToKibana] false it sends no request of its own,
    so nothing is installed; with the flag true or left out, the one request
    it sends itself is the installation of all rules, and it is the last
    command of the queue. *)
Theorem createAndInstallMockedPrebuiltRules_flag rules (installToKibana : option bool) :
  polledRequests
    (createAndInstallMockedPrebuiltRules rule_id SAMPLE_PREBUILT_RULE
       PERFORM_RULE_INSTALLATION_URL ELASTICSEARCH_URL rules installToKibana)
  = map (fun rule => putRuleAsset rule) rules /\
  (installToKibana = Some false ->
   createAndInstallMockedPrebuiltRules rule_id SAMPLE_PREBUILT_RULE
     PERFORM_RULE_INSTALLATION_URL ELASTICSEARCH_URL rules installToKibana
   = installPrebuiltRuleAssets rule_id SAMPLE_PREBUILT_RULE ELASTICSEARCH_URL rules /\
   directRequests
     (createAndInstallMockedPrebuiltRules rule_id SAMPLE_PREBUILT_RULE
        PERFORM_RULE_INSTALLATION_URL ELASTICSEARCH_URL rules installToKibana)
   = []) /\
  (installToKibana <> Some false ->
   directRequests
     (createAndInstallMockedPrebuiltRules rule_id SAMPLE_PREBUILT_RULE
        PERFORM_RULE_INSTALLATION_URL ELASTICSEARCH_URL rules installToKibana)
   = [installRequest] /\
   last
     (createAndInstallMockedPrebuiltRules rule_id SAMPLE_PREBUILT_RULE
        PERFORM_RULE_INSTALLATION_URL ELASTICSEARCH_URL rules installToKibana)
   = Some (Request installRequest)).
Proof.
  destruct (installPrebuiltRuleAssets_requests rules) as (Hd & Hp).
  unfold createAndInstallMockedPrebuiltRules. cbv zeta.
  split; [|split].
  - rewrite polledRequests_app, Hp.
    destruct (default true installToKibana); cbn; rewrite app_nil_r; reflexivity.
  - intros ->. cbn [default]. rewrite app_nil_r. split; [reflexivity|exact Hd].
  - intros Hflag.
    assert (default true installToKibana = true) as ->.
    { destruct installToKibana as [[]|]; [reflexivity|congruence|reflexivity]. }
    split.
    + rewrite directRequests_app, Hd. reflexivity.
    + unfold installAllPrebuiltRulesRequest.
      change (Log "Install prebuilt rules" [NumberArg (length rules)]
              :: [Request installRequest])
        with ([Log (RuleAsset := RuleAsset) "Install prebuilt rules"
                 [NumberArg (length rules)]]
              ++ [Request installRequest]).
      rewrite app_assoc. apply last_snoc.
Qed.

End Rules.

(** *** The theorems at work on sample rule assets *)

(** Two rules in [.kibana_security_solution]: four line feeds. *)
Lemma bulkIndexRequestBody_lines_witness :
  occurrences lineFeed
    (bulkIndexRequestBody (fun rule : string => rule) sampleStringify
       sampleStringifyRule ".kibana_security_solution" ["rule-1"; "rule-2"]) = 4 /\
  lastChar
    (bulkIndexRequestBody (fun rule : string => rule) sampleStringify
       sampleStringifyRule ".kibana_security_solution" ["rule-1"; "rule-2"])
  = Some lineFeed.
Proof.
  destruct (bulkIndexRequestBody_lines (fun rule : string => rule) sampleStringify
              sampleStringifyRule ".kibana_security_solution" ["rule-1"; "rule-2"])
    as [Hcount Hlast].
  - repeat constructor.
  - split; [exact Hcount|]. apply Hlast. discriminate.
Defined.

(** Mocked rules made available without installing them. *)
Lemma createAndInstallMockedPrebuiltRules_flag_witness :
  directRequests
    (createAndInstallMockedPrebuiltRules (fun rule : string => rule) "sample"
       "/internal/detection_engine/prebuilt_rules/installation/_perform"
       "http://localhost:9220" ["rule-1"; "rule-2"] (Some false))
  = [] /\
  last
    (createAndInstallMockedPrebuiltRules (fun rule : string => rule) "sample"
       "/internal/detection_engine/prebuilt_rules/installation/_perform"
       "http://localhost:9220" ["rule-1"; "rule-2"] None)
  = Some
      (Request
         (mkRequest "POST"
            "/internal/detection_engine/prebuilt_rules/installation/_perform"
            [("kbn-xsrf", "cypress-creds");
             ("x-elastic-internal-origin", "security-solution");
             ("elastic-api-version", "1")]
            true (JsonBody (JObject [("mode", JString "ALL_RULES")])))).
Proof.
  split.
  - exact (proj2 (proj1 (proj2
             (createAndInstallMockedPrebuiltRules_flag (fun rule : string => rule)
                "sample" "/internal/detection_engine/prebuilt_rules/installation/_perform"
                "http://localhost:9220" ["rule-1"; "rule-2"] (Some false)))
             eq_refl)).
  - exact (proj2 (proj2 (proj2
             (createAndInstallMockedPrebuiltRules_flag (fun rule : string => rule)
                "sample" "/internal/detection_engine/prebuilt_rules/installation/_perform"
                "http://localhost:9220" ["rule-1"; "rule-2"] None))
             ltac:(discriminate))).
Defined.

End PrebuiltRulesFacts.
